(** * Car dealership chatbot: the conversational query pipeline

    A shallow embedding of [backend.py] (the HTTP API) and [frontend.py]
    (the interactive script): the relational store, the knowledge-base
    matcher, the inventory queries, prompt assembly, the call to the
    generation API with its fallbacks, and the write operations.

    Conventions of the model.
    - A Python [str] is a [string]: the bytes of its UTF-8 encoding, which
      is how SQLite holds it.  Case mapping ([lower]) and the whitespace
      class ([strip]) are the ASCII ones; bytes outside ASCII are left
      alone by both.  SQL LIKE folds the case of ASCII letters only, reads
      pattern and text up to a NUL byte, takes [_] for one whole
      character, and refuses patterns of more than 50000 bytes.
    - A table of the store is the list of its rows in rowid order, that is
      in insertion order (every table has an AUTOINCREMENT key).  The
      [created_at] column, a clock reading, is not part of a row.
    - Python exceptions are values of [exn], threaded by the [py] monad. *)

From Stdlib Require Import String Ascii List ZArith Bool Lia Arith.
From Stdlib Require Import Sorting.Sorted Sorting.Permutation.
From Stdlib Require Import Numbers.DecimalString.
Import ListNotations.

Local Open Scope list_scope.
Local Open Scope string_scope.

(** ** Python strings *)

Module PyStr.

(** [c.lower()] on one character: [A-Z] go to [a-z]. *)
Definition lower_ascii (c : ascii) : ascii :=
  let n := nat_of_ascii c in
  if andb (65 <=? n)%nat (n <=? 90)%nat then ascii_of_nat (n + 32) else c.

(** [s.lower()] *)
Fixpoint lower (s : string) : string :=
  match s with
  | EmptyString => EmptyString
  | String c s' => String (lower_ascii c) (lower s')
  end.

(** [s.startswith(w)] *)
Fixpoint startswith (w s : string) : bool :=
  match w, s with
  | EmptyString, _ => true
  | String _ _, EmptyString => false
  | String a w', String b s' => if Ascii.eqb a b then startswith w' s' else false
  end.

(** [w in s]: [w] occurs in [s] as a contiguous run of characters. *)
Fixpoint contains (w s : string) : bool :=
  if startswith w s then true
  else match s with
       | EmptyString => false
       | String _ s' => contains w s'
       end.

(** [sep.join(parts)] *)
Fixpoint join (sep : string) (parts : list string) : string :=
  match parts with
  | [] => ""
  | [p] => p
  | p :: rest => p ++ sep ++ join sep rest
  end.

(** The whitespace class of [str.strip()] within ASCII:
    tab, line feed, vertical tab, form feed, carriage return,
    the four separators 0x1c-0x1f and the space. *)
Definition isspace (c : ascii) : bool :=
  let n := nat_of_ascii c in
  orb (andb (9 <=? n)%nat (n <=? 13)%nat)
      (orb (andb (28 <=? n)%nat (n <=? 31)%nat) (n =? 32)%nat).

(** [s.lstrip()] *)
Fixpoint lstrip (s : string) : string :=
  match s with
  | EmptyString => EmptyString
  | String c s' => if isspace c then lstrip s' else s
  end.

(** [s.rstrip()]: a character is dropped when it is whitespace and
    everything after it has been dropped too. *)
Fixpoint rstrip (s : string) : string :=
  match s with
  | EmptyString => EmptyString
  | String c s' =>
      match rstrip s' with
      | EmptyString => if isspace c then EmptyString else String c EmptyString
      | r => String c r
      end
  end.

(** [s.strip()] *)
Definition strip (s : string) : string := rstrip (lstrip s).

(** Every character of [s] is whitespace. *)
Fixpoint all_space (s : string) : bool :=
  match s with
  | EmptyString => true
  | String c s' => andb (isspace c) (all_space s')
  end.

(** First and last character, when there is one. *)
Definition first_char (s : string) : option ascii :=
  match s with
  | EmptyString => None
  | String c _ => Some c
  end.

Fixpoint last_char (s : string) : option ascii :=
  match s with
  | EmptyString => None
  | String c EmptyString => Some c
  | String _ s' => last_char s'
  end.

(** [str(n)] for an integer. *)
Definition str_of_Z (n : Z) : string := NilZero.string_of_int (Z.to_int n).

(** Digits grouped in threes from the right, as [format(n, ",")] does:
    [rev_group] works on the reversed digit string. *)
Fixpoint rev_group (k : nat) (digits : list ascii) : list ascii :=
  match digits with
  | [] => []
  | d :: rest =>
      match k, rest with
      | _, [] => [d]
      | O, _ => d :: ","%char :: rev_group 2 rest
      | S k', _ => d :: rev_group k' rest
      end
  end.

Definition group_thousands (digits : string) : string :=
  string_of_list_ascii (rev (rev_group 2 (rev (list_ascii_of_string digits)))).

(** [f"{n:,.0f}"] for a whole amount [n]. *)
Definition format_grouped (n : Z) : string :=
  if (n <? 0)%Z
  then "-" ++ group_thousands (NilZero.string_of_uint (N.to_uint (Z.abs_N n)))
  else group_thousands (NilZero.string_of_uint (N.to_uint (Z.abs_N n))).

End PyStr.
Export PyStr.

(** ** Python values and exceptions *)

Module Py.

#[local] Set Warnings "-register-all".

(** What [res.json()] yields: [None], [bool], [int], [str], [list], [dict]
    (a dict as its items in order, keys distinct). *)
Inductive json :=
| JNull
| JBool (b : bool)
| JNum (n : Z)
| JStr (s : string)
| JArr (items : list json)
| JObj (items : list (string * json)).

Inductive exn :=
| AttributeError (msg : string)
| TypeError (msg : string)
| IndexError (msg : string)
| KeyError (key : string)
| RequestException (msg : string)
| OperationalError (msg : string)
| OverflowError (msg : string).

(** [str(e)] *)
Definition str_of_exn (e : exn) : string :=
  match e with
  | AttributeError msg | TypeError msg | IndexError msg
  | KeyError msg | RequestException msg
  | OperationalError msg | OverflowError msg => msg
  end.

(** A computation that returns or raises. *)
Inductive py (A : Type) :=
| Return (a : A)
| Raise (e : exn).
Arguments Return {A} a.
Arguments Raise {A} e.

Definition bind {A B : Type} (m : py A) (k : A -> py B) : py B :=
  match m with
  | Return a => k a
  | Raise e => Raise e
  end.

(** [type(v).__name__] *)
Definition type_name (v : json) : string :=
  match v with
  | JNull => "NoneType"
  | JBool _ => "bool"
  | JNum _ => "int"
  | JStr _ => "str"
  | JArr _ => "list"
  | JObj _ => "dict"
  end.

(** [bool(v)] *)
Definition truthy (v : json) : bool :=
  match v with
  | JNull => false
  | JBool b => b
  | JNum n => negb (n =? 0)%Z
  | JStr s => negb (String.eqb s "")
  | JArr items => match items with [] => false | _ :: _ => true end
  | JObj items => match items with [] => false | _ :: _ => true end
  end.

(** [v or d] *)
Definition or_else (v d : json) : json := if truthy v then v else d.

(** [isinstance(v, list)] *)
Definition is_list (v : json) : bool :=
  match v with
  | JArr _ => true
  | _ => false
  end.

Fixpoint lookup {V : Type} (key : string) (items : list (string * V)) : option V :=
  match items with
  | [] => None
  | (k, v) :: rest => if String.eqb k key then Some v else lookup key rest
  end.

(** [v.get(key, default)]: only a dict has the method. *)
Definition get (v : json) (key : string) (default : json) : py json :=
  match v with
  | JObj items =>
      Return (match lookup key items with
              | Some x => x
              | None => default
              end)
  | _ => Raise (AttributeError
                  ("'" ++ type_name v ++ "' object has no attribute 'get'"))
  end.

(** [v[0]] *)
Definition item0 (v : json) : py json :=
  match v with
  | JArr (x :: _) => Return x
  | JArr [] => Raise (IndexError "list index out of range")
  | JStr (String c _) => Return (JStr (String c EmptyString))
  | JStr EmptyString => Raise (IndexError "string index out of range")
  | JObj _ => Raise (KeyError "0")
  | _ => Raise (TypeError ("'" ++ type_name v ++ "' object is not subscriptable"))
  end.

(** [v.lower()]: only a str has the method. *)
Definition call_lower (v : json) : py string :=
  match v with
  | JStr s => Return (lower s)
  | _ => Raise (AttributeError
                  ("'" ++ type_name v ++ "' object has no attribute 'lower'"))
  end.

(** The text a value is, once [v.lower()] has shown it to be a str. *)
Definition text_of (v : json) : string :=
  match v with
  | JStr s => s
  | _ => ""
  end.

(** What the three calls [post(...)], [res.raise_for_status()], [res.json()]
    come to: one of them raises (no connection, a timeout, retries used up,
    an error status, a body that is not JSON), or the body is decoded. *)
Definition outcome := py json.

End Py.
Export Py.

Notation "x <- m ;; k" := (bind m (fun x => k))
  (at level 61, m at next level, right associativity).

(** ** The persistent store *)

Module Store.

(** Table [messages]. *)
Record MessageRow := mkMessageRow {
  msg_session_id : string;
  msg_role : string;
  msg_text : string
}.

(** Table [leads]; [status] defaults to ['new']. *)
Record LeadRow := mkLeadRow {
  lead_name : string;
  lead_phone : string;
  lead_email : string;
  lead_interested_in : string;
  lead_budget : string;
  lead_status : string;
  lead_notes : string
}.

(** Table [cars].  The only writer is [init_db], which stores text in every
    text column and whole numbers for [year] and [price]. *)
Record CarRow := mkCarRow {
  car_make : string;
  car_model : string;
  car_year : Z;
  car_price : Z;
  car_mileage : string;
  car_fuel_type : string;
  car_transmission : string;
  car_features : string;
  car_status : string
}.

(** Table [test_drives]; [status] defaults to ['pending']. *)
Record TestDriveRow := mkTestDriveRow {
  td_customer_name : string;
  td_phone : string;
  td_email : string;
  td_car_model : string;
  td_preferred_date : string;
  td_preferred_time : string;
  td_status : string
}.

(** Table [service_requests]; [status] defaults to ['pending']. *)
Record ServiceRequestRow := mkServiceRequestRow {
  sr_customer_name : string;
  sr_phone : string;
  sr_car_model : string;
  sr_service_type : string;
  sr_description : string;
  sr_status : string
}.

(** The database file: five tables, each in rowid order. *)
Record DB := mkDB {
  messages : list MessageRow;
  leads : list LeadRow;
  cars : list CarRow;
  test_drives : list TestDriveRow;
  service_requests : list ServiceRequestRow
}.

Definition empty_db : DB := mkDB [] [] [] [] [].

(** [INSERT INTO t ...]: the new row gets the next rowid, so it goes last. *)
Definition insert_message (r : MessageRow) (db : DB) : DB :=
  mkDB (messages db ++ [r])%list (leads db) (cars db) (test_drives db)
       (service_requests db).

Definition insert_lead (r : LeadRow) (db : DB) : DB :=
  mkDB (messages db) (leads db ++ [r])%list (cars db) (test_drives db)
       (service_requests db).

Definition insert_test_drive (r : TestDriveRow) (db : DB) : DB :=
  mkDB (messages db) (leads db) (cars db) (test_drives db ++ [r])%list
       (service_requests db).

Definition insert_service_request (r : ServiceRequestRow) (db : DB) : DB :=
  mkDB (messages db) (leads db) (cars db) (test_drives db)
       (service_requests db ++ [r])%list.

Definition sample_cars : list CarRow :=
  [ mkCarRow "Toyota" "Corolla" 2020 3500000 "45,000 km" "Petrol" "Automatic"
             "ABS, Airbags, Power Steering, AC, Alloy Rims" "available";
    mkCarRow "Honda" "Civic" 2019 3200000 "52,000 km" "Petrol" "CVT"
             "Cruise Control, Sunroof, Leather Seats, Navigation" "available";
    mkCarRow "Suzuki" "Alto" 2021 1800000 "25,000 km" "Petrol" "Manual"
             "AC, Power Windows, Central Lock" "available";
    mkCarRow "Honda" "City" 2020 2800000 "38,000 km" "Petrol" "Automatic"
             "ABS, Airbags, Alloy Rims, Multimedia" "available";
    mkCarRow "Toyota" "Yaris" 2022 3900000 "15,000 km" "Petrol" "CVT"
             "Smart Entry, Push Start, Reverse Camera" "available" ].

(** [init_db]: the tables exist already in the model; the sample cars are
    inserted when [SELECT COUNT( * ) FROM cars] is 0. *)
Definition init_db (db : DB) : DB :=
  match cars db with
  | [] => mkDB (messages db) (leads db) sample_cars (test_drives db)
               (service_requests db)
  | _ :: _ => db
  end.

(** *** The SQL the handlers run *)

(** C code reads a text up to its first NUL byte. *)
Fixpoint c_string (s : string) : string :=
  match s with
  | EmptyString => EmptyString
  | String c s' => if Ascii.eqb c Ascii.zero then EmptyString else String c (c_string s')
  end.

(** A character of UTF-8 text is one byte below 0xC0, or a lead byte from
    0xC0 on together with the continuation bytes (0x80 to 0xBF) after
    it. *)
Definition is_lead (b : ascii) : bool := (192 <=? nat_of_ascii b)%nat.

Definition is_continuation (b : ascii) : bool :=
  andb (128 <=? nat_of_ascii b)%nat (nat_of_ascii b <? 192)%nat.

Fixpoint skip_continuation (s : string) : string :=
  match s with
  | EmptyString => EmptyString
  | String b s' => if is_continuation b then skip_continuation s' else s
  end.

(** What is left of [String b s'] after its first character. *)
Definition after_character (b : ascii) (s' : string) : string :=
  if is_lead b then skip_continuation s' else s'.

(** [%]: the rest of the pattern is tried at the start of every character
    of the text and at its end; [inside] tells that the bytes read so far
    end in a lead byte and its continuation bytes. *)
Fixpoint any_run (rest_matches : string -> bool) (inside : bool) (s : string) : bool :=
  match s with
  | EmptyString => rest_matches EmptyString
  | String b s' =>
      if andb inside (is_continuation b) then any_run rest_matches true s'
      else if rest_matches s then true
           else any_run rest_matches (is_lead b) s'
  end.

(** The comparison of a pattern and a text, both as C strings: [%] stands
    for any run of characters and [_] for any one character; any other
    byte matches itself, upper and lower case of an ASCII letter being
    the same. *)
Fixpoint pattern_compare (p s : string) : bool :=
  match p with
  | EmptyString =>
      match s with
      | EmptyString => true
      | String _ _ => false
      end
  | String c p' =>
      if Ascii.eqb c "%"%char then any_run (pattern_compare p') false s
      else
        match s with
        | EmptyString => false
        | String d s' =>
            if Ascii.eqb c "_"%char then pattern_compare p' (after_character d s')
            else if Ascii.eqb (lower_ascii c) (lower_ascii d)
                 then pattern_compare p' s'
                 else false
        end
  end.

(** [s LIKE p], for a pattern the function accepts. *)
Definition like (p s : string) : bool := pattern_compare (c_string p) (c_string s).

(** The longest pattern, in bytes, that LIKE accepts. *)
Definition like_pattern_limit : Z := 50000.

Definition like_pattern_too_long (p : string) : bool :=
  (like_pattern_limit <? Z.of_nat (String.length p))%Z.

(** [s LIKE p] as the engine evaluates it on a row. *)
Definition sql_like (p s : string) : py bool :=
  if like_pattern_too_long p
  then Raise (OperationalError "LIKE or GLOB pattern too complex")
  else Return (like p s).

(** [status = 'available'] *)
Definition available (c : CarRow) : bool := String.eqb (car_status c) "available".

(** [SELECT * FROM cars WHERE status = 'available' AND
     (make LIKE ? OR model LIKE ? OR features LIKE ?)] with the one
    parameter [pat] bound three times: the rows that the statement yields
    when it runs to its end, in rowid order. *)
Definition select_matching (pat : string) (db : DB) : list CarRow :=
  filter (fun c => andb (available c)
                        (orb (like pat (car_make c))
                             (orb (like pat (car_model c))
                                  (like pat (car_features c)))))
         (cars db).

(** The WHERE clause on one row: LIKE is evaluated only when the status
    test has passed, and the next LIKE only when the one before failed. *)
Definition where_matching (pat : string) (c : CarRow) : py bool :=
  if available c then
    by_make <- sql_like pat (car_make c) ;;
    if by_make then Return true
    else
      by_model <- sql_like pat (car_model c) ;;
      if by_model then Return true
      else sql_like pat (car_features c)
  else Return false.

(** A table scan with a WHERE clause that may raise. *)
Fixpoint scan_where {A : Type} (test : A -> py bool) (rows : list A) : py (list A) :=
  match rows with
  | [] => Return []
  | r :: rest =>
      keep <- test r ;;
      found <- scan_where test rest ;;
      Return (if keep then r :: found else found)
  end.

(** The same statement as [cursor.execute] and [fetchall] run it. *)
Definition query_matching (pat : string) (db : DB) : py (list CarRow) :=
  scan_where (where_matching pat) (cars db).

(** The statement raises: the pattern is too long and a row reaches the
    LIKE test. *)
Definition matching_query_fails (pat : string) (db : DB) : bool :=
  andb (like_pattern_too_long pat) (existsb available (cars db)).

(** [ORDER BY year DESC]: the rows are keyed by [year], larger first; rows
    with the same [year] come out in the order the scan produced them
    (SQLite breaks ties by the scan sequence).  [insert_by_year r sorted]
    places [r], scanned before every row of [sorted], in front of the first
    row whose year is not larger. *)
Fixpoint insert_by_year (r : CarRow) (sorted : list CarRow) : list CarRow :=
  match sorted with
  | [] => [r]
  | r' :: rest =>
      if (car_year r <? car_year r')%Z
      then r' :: insert_by_year r rest
      else r :: r' :: rest
  end.

Definition order_by_year_desc (rows : list CarRow) : list CarRow :=
  fold_right insert_by_year [] rows.

(** [SELECT * FROM cars WHERE status = 'available' ORDER BY year DESC] *)
Definition select_available (db : DB) : list CarRow :=
  order_by_year_desc (filter available (cars db)).

(** [... ORDER BY year DESC LIMIT n] *)
Definition select_available_limit (n : nat) (db : DB) : list CarRow :=
  firstn n (select_available db).

(** Binding a Python [int] to a parameter: SQLite integers have 64 bits. *)
Definition fits_int64 (n : Z) : bool :=
  andb (- 2 ^ 63 <=? n)%Z (n <? 2 ^ 63)%Z.

Definition bind_int (n : Z) : py Z :=
  if fits_int64 n then Return n
  else Raise (OverflowError "Python int too large to convert to SQLite INTEGER").

(** [LIMIT n], for a bound [n]: a negative [n] puts no bound on the rows. *)
Definition sql_limit {A : Type} (n : Z) (rows : list A) : list A :=
  if (n <? 0)%Z then rows else firstn (Z.to_nat n) rows.

(** [session_id = ?] *)
Definition of_session (session_id : string) (r : MessageRow) : bool :=
  String.eqb (msg_session_id r) session_id.

(** [SELECT role, text, created_at FROM messages WHERE session_id = ?
     ORDER BY id DESC LIMIT ?]: the rows of the session, newest first,
    once both parameters are bound. *)
Definition select_session_messages (session_id : string) (limit : Z) (db : DB)
  : list (string * string) :=
  sql_limit limit
    (map (fun r => (msg_role r, msg_text r))
         (rev (filter (of_session session_id) (messages db)))).

(** The same statement with the binding of its limit. *)
Definition query_session_messages (session_id : string) (limit : Z) (db : DB)
  : py (list (string * string)) :=
  n <- bind_int limit ;;
  Return (select_session_messages session_id n db).

(** [SELECT COUNT( * ) FROM messages WHERE session_id = ?] *)
Definition count_session_messages (session_id : string) (db : DB) : nat :=
  length (filter (of_session session_id) (messages db)).

(** [SELECT COUNT( * ) FROM leads WHERE name IN
     (SELECT DISTINCT text FROM messages WHERE session_id = ?)] *)
Definition count_leads_named_in_session (session_id : string) (db : DB) : nat :=
  length
    (filter (fun l => existsb (fun r => String.eqb (lead_name l) (msg_text r))
                              (filter (of_session session_id) (messages db)))
            (leads db)).

End Store.
Export Store.

(** ** The knowledge base (the same table in both files) *)

Record Topic := mkTopic {
  info : string;
  keywords : list string
}.

(** The dict literal, in insertion order, which is the order in which
    [knowledge_base.values()] iterates. *)
Definition knowledge_base : list (string * Topic) :=
  [ ("financing",
     mkTopic "We offer flexible financing options with 20-30% down payment and up to 5 years installment plans. Interest rates start from 12% per annum."
             ["finance"; "loan"; "installment"; "payment plan"; "emi"; "down payment"]);
    ("warranty",
     mkTopic "All our cars come with a 3-month dealer warranty covering engine and transmission. Extended warranty packages available for up to 2 years."
             ["warranty"; "guarantee"; "coverage"; "protection"]);
    ("exchange",
     mkTopic "We accept car exchange! Bring your old car and we'll evaluate it for the best exchange value. We handle all documentation."
             ["exchange"; "trade-in"; "old car"; "swap"]);
    ("service",
     mkTopic "Our service center offers: Regular maintenance, Oil changes, Brake services, AC repair, Engine diagnostics, Body work and painting."
             ["service"; "maintenance"; "repair"; "fix"; "mechanic"]);
    ("inspection",
     mkTopic "Free pre-purchase inspection available for all cars. Our certified technicians check 150+ points before delivery."
             ["inspection"; "check"; "evaluate"; "condition"]);
    ("delivery",
     mkTopic "Free home delivery within city limits. For outstation delivery, charges apply based on distance."
             ["delivery"; "shipping"; "transport"]);
    ("documentation",
     mkTopic "We handle all documentation including: Registration transfer, Token tax, Insurance, Number plate transfer. Processing time: 7-14 days."
             ["documents"; "registration"; "transfer"; "paperwork"; "token tax"]);
    ("operating_hours",
     mkTopic "We're open Monday to Saturday: 10:00 AM - 8:00 PM, Sunday: 11:00 AM - 6:00 PM. 24/7 support available via phone."
             ["hours"; "timing"; "open"; "close"; "schedule"]) ].

(** [knowledge_base.values()] *)
Definition kb_values : list Topic := map snd knowledge_base.

(** The inner loop of [search_knowledge_base]: walk the keywords, and at the
    first one found in the lowered query append the topic's info and
    [break]. *)
Fixpoint scan_keywords (kws : list string) (data : Topic) (query_lower : string)
         (matches : list string) : list string :=
  match kws with
  | [] => matches
  | keyword :: rest =>
      if contains keyword query_lower
      then (matches ++ [info data])%list
      else scan_keywords rest data query_lower matches
  end.

(** [search_knowledge_base(query)] *)
Definition search_knowledge_base (query : string) : list string :=
  let query_lower := lower query in
  fold_left (fun matches data => scan_keywords (keywords data) data query_lower matches)
            kb_values [].

(** What a handler of the API gives the client. *)
Inductive http_result :=
| OK (response : string)
| HTTPException (status_code : Z) (detail : string).

(** The same for a handler that returns rows. *)
Inductive served (A : Type) :=
| Served (body : A)
| Failed (status_code : Z) (detail : string).
Arguments Served {A} body.
Arguments Failed {A} status_code detail.

(** [try: ... except Exception as e: raise HTTPException(500, str(e))] *)
Definition handle {A : Type} (m : py A) : served A :=
  match m with
  | Return a => Served a
  | Raise e => Failed 500 (str_of_exn e)
  end.

(** The line feed of the string literals. *)
Definition nl : string := String (ascii_of_nat 10) EmptyString.

(** [lst[-n:]] for [n > 0] *)
Definition last_n {A : Type} (n : nat) (l : list A) : list A :=
  skipn (length l - n) l.

(** [not GEMINI_API_KEY]: the variable is unset or empty. *)
Definition key_missing (key : option string) : bool :=
  match key with
  | None => true
  | Some k => String.eqb k ""
  end.

(** The contact number that the fallback texts give. *)
Definition support_phone : string := "0300-1234567".

(** [any(word in text_lower for word in words)] *)
Definition any_word_in (words : list string) (text_lower : string) : bool :=
  existsb (fun word => contains word text_lower) words.

(** The process outside the store: the requests sent to the generation API,
    each recorded by the prompt it carried, oldest first. *)
Record World := mkWorld {
  db : DB;
  posted : list string
}.

(** ** backend.py *)

Module Backend.

(** The request models.  A field typed [Optional[str] = None] is an option. *)
Record Message := mkMessage {
  session_id : string;
  role : string;
  text : string
}.

(** One entry of [ChatRequest.history]: a dict, here with text values. *)
Definition history_entry := list (string * string).

Record ChatRequest := mkChatRequest {
  chat_session_id : string;
  user_message : string;
  history : option (list history_entry)
}.

Record Lead := mkLead {
  name : string;
  phone : string;
  email : option string;
  interested_in : option string;
  budget : option string;
  notes : option string
}.

Record TestDrive := mkTestDrive {
  td_req_customer_name : string;
  td_req_phone : string;
  td_req_email : option string;
  td_req_car_model : string;
  td_req_preferred_date : string;
  td_req_preferred_time : string
}.

Record ServiceRequest := mkServiceRequest {
  sr_req_customer_name : string;
  sr_req_phone : string;
  sr_req_car_model : string;
  sr_req_service_type : string;
  sr_req_description : option string
}.

(** [(x or "")] for an optional text field. *)
Definition or_empty (x : option string) : string :=
  match x with
  | Some v => v
  | None => ""
  end.

(** [f"{x}"] for the result of [msg.get(key)]: [None] prints as [None]. *)
Definition fmt_get (msg : history_entry) (key : string) : string :=
  match lookup key msg with
  | Some v => v
  | None => "None"
  end.

(** *** Write endpoints *)

(** [POST /messages/save] *)
Definition save_message (message : Message) (d : DB) : DB :=
  insert_message
    (mkMessageRow (session_id message) (role message) (text message)) d.

(** [POST /leads] *)
Definition create_lead (lead : Lead) (d : DB) : DB :=
  insert_lead
    (mkLeadRow (strip (name lead)) (strip (phone lead))
               (strip (or_empty (email lead)))
               (strip (or_empty (interested_in lead)))
               (strip (or_empty (budget lead)))
               "new"
               (strip (or_empty (notes lead)))) d.

(** [POST /test-drives] *)
Definition create_test_drive (test_drive : TestDrive) (d : DB) : DB :=
  insert_test_drive
    (mkTestDriveRow (strip (td_req_customer_name test_drive))
                    (strip (td_req_phone test_drive))
                    (strip (or_empty (td_req_email test_drive)))
                    (strip (td_req_car_model test_drive))
                    (strip (td_req_preferred_date test_drive))
                    (strip (td_req_preferred_time test_drive))
                    "pending") d.

(** [POST /service-requests] *)
Definition create_service_request (service : ServiceRequest) (d : DB) : DB :=
  insert_service_request
    (mkServiceRequestRow (strip (sr_req_customer_name service))
                         (strip (sr_req_phone service))
                         (strip (sr_req_car_model service))
                         (strip (sr_req_service_type service))
                         (strip (or_empty (sr_req_description service)))
                         "pending") d.

(** *** Read endpoints *)

(** [GET /cars] *)
Definition get_all_cars (d : DB) : list CarRow := select_available d.

(** [POST /cars/search] *)
Definition search_cars (query : string) (d : DB) : served (list CarRow) :=
  let q := "%" ++ query ++ "%" in
  handle (query_matching q d).

(** *** The chat endpoint *)

(** One entry of [car_list]. *)
Definition car_detail (car : CarRow) : string :=
  "📌 " ++ car_make car ++ " " ++ car_model car ++ " " ++ str_of_Z (car_year car)
  ++ " - PKR " ++ format_grouped (car_price car) ++ nl
  ++ "   Mileage: " ++ car_mileage car ++ " | Fuel: " ++ car_fuel_type car
  ++ " | Transmission: " ++ car_transmission car ++ nl
  ++ "   Features: " ++ car_features car.

Definition car_details (cars : list CarRow) : string :=
  match cars with
  | [] => ""
  | _ :: _ => join (nl ++ nl) (map car_detail (firstn 3 cars))
  end.

Definition inventory_line (car : CarRow) : string :=
  "- " ++ car_make car ++ " " ++ car_model car ++ " " ++ str_of_Z (car_year car)
  ++ " (PKR " ++ format_grouped (car_price car) ++ ")".

Definition kb_info : string :=
  join nl (map (fun data => "- " ++ info data) kb_values).

Definition context (car_inventory : string) : string :=
  "You are an expert customer support assistant for a car dealership in Pakistan." ++ nl
  ++ nl
  ++ "AVAILABLE INVENTORY:" ++ nl
  ++ car_inventory ++ nl
  ++ nl
  ++ "SERVICES & POLICIES:" ++ nl
  ++ kb_info ++ nl
  ++ nl
  ++ "YOUR ROLE:" ++ nl
  ++ "- Help customers find the right car based on their needs and budget" ++ nl
  ++ "- Answer questions about financing, warranties, services, and policies" ++ nl
  ++ "- Guide customers to book test drives or schedule service appointments" ++ nl
  ++ "- Be friendly, professional, and helpful" ++ nl
  ++ "- Use PKR currency format" ++ nl
  ++ nl
  ++ "IMPORTANT:" ++ nl
  ++ "- Keep responses concise but informative" ++ nl
  ++ "- If customer shows interest, encourage them to take action".

Definition additional_context (kb_matches : list string) (details : string) : string :=
  (match kb_matches with
   | [] => ""
   | _ :: _ => nl ++ nl ++ "RELEVANT INFORMATION:" ++ nl ++ join nl kb_matches
   end)
  ++ (if String.eqb details "" then ""
      else nl ++ nl ++ "MATCHING CARS:" ++ nl ++ details).

(** One line of the history section. *)
Definition history_line (msg : history_entry) : string :=
  fmt_get msg "role" ++ ": " ++ fmt_get msg "content".

(** [history_text]: empty when [request.history] is [None] or [[]]. *)
Definition history_text (h : option (list history_entry)) : string :=
  match h with
  | None | Some [] => ""
  | Some entries => join nl (map history_line (last_n 10 entries))
  end.

(** The prompt, from the rows [cars] and [all_cars] of the two queries. *)
Definition prompt_of (cars all_cars : list CarRow) (request : ChatRequest) : string :=
  let kb_matches := search_knowledge_base (user_message request) in
  let car_inventory := join nl (map inventory_line all_cars) in
  context car_inventory ++ nl
  ++ nl
  ++ additional_context kb_matches (car_details cars) ++ nl
  ++ nl
  ++ "CONVERSATION HISTORY:" ++ nl
  ++ history_text (history request) ++ nl
  ++ nl
  ++ "CUSTOMER QUERY: " ++ user_message request ++ nl
  ++ nl
  ++ "Provide a helpful, natural response.".

(** The prompt of a request whose queries have run to their end. *)
Definition full_prompt (d : DB) (request : ChatRequest) : string :=
  prompt_of (select_matching ("%" ++ user_message request ++ "%") d)
            (select_available_limit 10 d) request.

Definition not_configured : string :=
  "⚠️ AI service not configured. Please contact support at 0300-1234567.".

Definition couldnt_generate : string :=
  "⚠️ Sorry, I couldn't generate a response. Please try again or call 0300-1234567.".

Definition having_trouble : string :=
  "⚠️ I'm having trouble right now. Please try again or call us at: 0300-1234567".

Definition trigger_words : list string :=
  ["interested"; "would you like"; "book"; "schedule"; "test drive"].

Definition suggestion : string :=
  nl ++ nl ++ "💡 _Use the forms in the sidebar to book or save your details!_".

(** The nested reads of the inner [try]: the value left in [response_text]
    before the emptiness test, or the exception one of the reads raises. *)
Definition extract_text (body : json) : py json :=
  candidates <- get body "candidates" JNull ;;
  let candidates := or_else candidates (JArr []) in
  if andb (truthy candidates) (is_list candidates) then
    candidate <- item0 candidates ;;
    content <- get candidate "content" JNull ;;
    let content := or_else content (JObj []) in
    parts <- get content "parts" JNull ;;
    let parts := or_else parts (JArr []) in
    if andb (truthy parts) (is_list parts) then
      part <- item0 parts ;;
      get part "text" (JStr "")
    else Return (JStr "")
  else Return (JStr "").

(** The inner [try ... except Exception] as a whole: what [response_text]
    holds after it. *)
Definition response_after_try (o : outcome) : json :=
  match (body <- o ;;
         response_text <- extract_text body ;;
         Return (if truthy response_text then response_text
                 else JStr couldnt_generate)) with
  | Return response_text => response_text
  | Raise _ => JStr having_trouble
  end.

(** The lines after the inner [try]: the trigger-word test calls
    [response_text.lower()], and an exception there reaches the outer
    [except], which raises the 500. *)
Definition suggest_action (response_text : json) : http_result :=
  match (low <- call_lower response_text ;;
         Return (if any_word_in trigger_words low
                 then text_of response_text ++ suggestion
                 else text_of response_text)) with
  | Return t => OK t
  | Raise _ => HTTPException 500 "Internal server error"
  end.

(** From the outcome of the call to what the handler returns or raises. *)
Definition respond (o : outcome) : http_result :=
  suggest_action (response_after_try o).

Section Chat.

(** The environment of the process: the key, and what the generation API
    does with a prompt. *)
Variable GEMINI_API_KEY : option string.
Variable post : string -> outcome.

(** [POST /chat]: the two queries come first; what the first raises
    reaches the outer [except], which raises the 500. *)
Definition chat (w : World) (request : ChatRequest) : http_result * World :=
  match query_matching ("%" ++ user_message request ++ "%") (db w) with
  | Raise _ => (HTTPException 500 "Internal server error", w)
  | Return cars =>
      let all_cars := select_available_limit 10 (db w) in
      let prompt := prompt_of cars all_cars request in
      if key_missing GEMINI_API_KEY then (OK not_configured, w)
      else
        let w' := mkWorld (db w) (posted w ++ [prompt])%list in
        (respond (post prompt), w')
  end.

End Chat.

(** *** Listing endpoints *)

(** [GET /messages/{session_id}]: the rows come newest first and are
    reversed before they are returned. *)
Definition get_messages (session_id : string) (limit : Z) (d : DB)
  : served (list (string * string)) :=
  handle (rows <- query_session_messages session_id limit d ;;
          Return (rev rows)).

(** [GET /leads], [GET /test-drives], [GET /service-requests]:
    [SELECT * ... ORDER BY id DESC]. *)
Definition get_leads (d : DB) : list LeadRow := rev (leads d).

Definition get_test_drives (d : DB) : list TestDriveRow := rev (test_drives d).

Definition get_service_requests (d : DB) : list ServiceRequestRow :=
  rev (service_requests d).

(** [GET /stats/{session_id}] *)
Record Stats := mkStats {
  stat_messages : nat;
  stat_test_drives : nat;
  stat_leads : nat
}.

Definition get_stats (session_id : string) (d : DB) : Stats :=
  mkStats (count_session_messages session_id d)
          (length (test_drives d))
          (length (leads d)).

End Backend.

(** ** frontend.py *)

Module Frontend.

(** *** Database helpers *)

Definition save_message (session_id role text : string) (d : DB) : DB :=
  insert_message (mkMessageRow session_id role text) d.

(** Arguments that the script guards with [(x or "")] may be [None]. *)
Definition save_lead (name phone : string) (email interested_in budget notes : option string)
           (d : DB) : DB :=
  insert_lead
    (mkLeadRow (strip name) (strip phone)
               (strip (Backend.or_empty email))
               (strip (Backend.or_empty interested_in))
               (strip (Backend.or_empty budget))
               "new"
               (strip (Backend.or_empty notes))) d.

Definition save_test_drive (customer_name phone : string) (email : option string)
           (car_model preferred_date preferred_time : string) (d : DB) : DB :=
  insert_test_drive
    (mkTestDriveRow (strip customer_name) (strip phone)
                    (strip (Backend.or_empty email))
                    (strip car_model) preferred_date preferred_time
                    "pending") d.

Definition save_service_request (customer_name phone car_model service_type : string)
           (description : option string) (d : DB) : DB :=
  insert_service_request
    (mkServiceRequestRow (strip customer_name) (strip phone) (strip car_model)
                         (strip service_type)
                         (strip (Backend.or_empty description))
                         "pending") d.

Definition get_all_cars (d : DB) : list CarRow := select_available d.

Definition search_cars (query : string) (d : DB) : py (list CarRow) :=
  let q := "%" ++ query ++ "%" in
  query_matching q d.

(** The lines of [get_car_details] after the search: [None] when nothing
    matched. *)
Definition car_details_text (cars : list CarRow) : option string :=
  match cars with
  | [] => None
  | _ :: _ => Some (join (nl ++ nl) (map Backend.car_detail (firstn 3 cars)))
  end.

(** [get_car_details(query)] *)
Definition get_car_details (query : string) (d : DB) : py (option string) :=
  cars <- search_cars query d ;;
  Return (car_details_text cars).

(** *** The call to the generation API *)

Definition key_not_configured : string :=
  "⚠️ AI key not configured in frontend. Please configure GEMINI_API_KEY in .env or Streamlit secrets.".

Definition couldnt_parse : string := "⚠️ Couldn't parse AI response.".

Definition trouble_connecting : string :=
  "⚠️ I'm having trouble connecting right now. Please try again or call us at: 0300-1234567"
  ++ nl ++ nl ++ "Error: ".

Definition trigger_words : list string :=
  ["interested"; "would you like"; "shall i"; "book"; "schedule"].

Definition tip : string :=
  nl ++ nl
  ++ "💡 _Tip: Use the forms in the sidebar to book a test drive or save your details!_".

Definition context (car_list : string) : string :=
  "You are an expert customer support assistant for a car dealership in Pakistan." ++ nl
  ++ nl
  ++ "AVAILABLE INVENTORY:" ++ nl
  ++ car_list ++ nl
  ++ nl
  ++ "SERVICES & POLICIES:" ++ nl
  ++ Backend.kb_info ++ nl
  ++ nl
  ++ "YOUR ROLE:" ++ nl
  ++ "- Help customers find the right car based on their needs and budget" ++ nl
  ++ "- Answer questions about financing, warranties, services, and policies" ++ nl
  ++ "- Guide customers to book test drives or schedule service appointments" ++ nl
  ++ "- Capture lead information when customers show interest" ++ nl
  ++ "- Be friendly, professional, and helpful" ++ nl
  ++ "- Use PKR currency format" ++ nl
  ++ nl
  ++ "IMPORTANT:" ++ nl
  ++ "- If customer asks about a specific car, provide detailed information" ++ nl
  ++ "- If customer shows interest, encourage them to fill the lead form or book a test drive" ++ nl
  ++ "- Keep responses concise but informative".

Definition additional_context (kb_matches : list string) (details : option string) : string :=
  (match kb_matches with
   | [] => ""
   | _ :: _ => nl ++ nl ++ "RELEVANT INFORMATION:" ++ nl ++ join nl kb_matches
   end)
  ++ (match details with
      | None => ""
      | Some t => if String.eqb t "" then ""
                  else nl ++ nl ++ "MATCHING CARS:" ++ nl ++ t
      end).

(** The prompt, from the rows [cars] of the listing and the result
    [details] of [get_car_details]. *)
Definition prompt_of (cars : list CarRow) (details : option string)
           (user_query conversation_history : string) : string :=
  let car_list := join nl (map Backend.inventory_line (firstn 10 cars)) in
  let kb_matches := search_knowledge_base user_query in
  context car_list ++ nl
  ++ nl
  ++ additional_context kb_matches details ++ nl
  ++ nl
  ++ "CONVERSATION HISTORY:" ++ nl
  ++ conversation_history ++ nl
  ++ nl
  ++ "CUSTOMER QUERY: " ++ user_query ++ nl
  ++ nl
  ++ "Provide a helpful, natural response. If you mentioned cars or services, encourage the customer to take the next step (book test drive, fill lead form, etc.)".

(** The prompt of a query whose car search has run to its end. *)
Definition full_prompt (d : DB) (user_query conversation_history : string) : string :=
  prompt_of (get_all_cars d)
            (car_details_text (select_matching ("%" ++ user_query ++ "%") d))
            user_query conversation_history.

(** The body of the [try]: every read, the trigger-word test and the two
    [return]s. *)
Definition parse_response (body : json) : py string :=
  candidates <- get body "candidates" JNull ;;
  let candidates := or_else candidates (JArr []) in
  if truthy candidates then
    candidate <- item0 candidates ;;
    content <- get candidate "content" (JObj []) ;;
    parts <- get content "parts" (JArr []) ;;
    if truthy parts then
      part <- item0 parts ;;
      response <- get part "text" (JStr "") ;;
      low <- call_lower response ;;
      Return (if any_word_in trigger_words low
              then text_of response ++ tip
              else text_of response)
    else Return couldnt_parse
  else Return couldnt_parse.

(** [try ... except Exception as e] *)
Definition answer_of (o : outcome) : string :=
  match (body <- o ;; parse_response body) with
  | Return response => response
  | Raise e => trouble_connecting ++ str_of_exn e
  end.

(** The chat state of the page. *)
Record ChatMsg := mkChatMsg {
  role : string;
  content : string
}.

Record SessionState := mkSessionState {
  session_id : string;
  st_messages : list ChatMsg
}.

Definition history_line (msg : ChatMsg) : string := role msg ++ ": " ++ content msg.

Section Chat.

Variable GEMINI_API_KEY : option string.
Variable post : string -> outcome.

(** [ask_gemini]: the listing and the car search come before the [try]
    and what they raise leaves the function. *)
Definition ask_gemini (user_query conversation_history : string) (w : World)
  : py (string * World) :=
  if key_missing GEMINI_API_KEY then Return (key_not_configured, w)
  else
    let cars := get_all_cars (db w) in
    car_details <- get_car_details user_query (db w) ;;
    let prompt := prompt_of cars car_details user_query conversation_history in
    Return (answer_of (post prompt), mkWorld (db w) (posted w ++ [prompt])%list).

(** The block under [if user_input := st.chat_input(...)]: it runs when a
    non-empty text was submitted.  The result is what the run leaves
    behind; when [ask_gemini] raises the run ends there, with the user
    message on the page and in the store. *)
Definition on_chat_input (submitted : option string) (st : SessionState) (w : World)
  : SessionState * World :=
  match submitted with
  | None => (st, w)
  | Some user_input =>
      if String.eqb user_input "" then (st, w)
      else
        let msgs1 := (st_messages st ++ [mkChatMsg "user" user_input])%list in
        let w1 := mkWorld (save_message (session_id st) "user" user_input (db w))
                          (posted w) in
        let history := join nl (map history_line (last_n 10 msgs1)) in
        match ask_gemini user_input history w1 with
        | Raise _ => (mkSessionState (session_id st) msgs1, w1)
        | Return (response, w2) =>
            let msgs2 := (msgs1 ++ [mkChatMsg "assistant" response])%list in
            (mkSessionState (session_id st) msgs2,
             mkWorld (save_message (session_id st) "assistant" response (db w2))
                     (posted w2))
        end
  end.

End Chat.

(** *** Reading the history back *)

Definition get_session_messages (session_id : string) (limit : Z) (d : DB)
  : py (list (string * string)) :=
  rows <- query_session_messages session_id limit d ;;
  Return (rev rows).

Definition get_user_history_summary (session_id : string) (d : DB) : Backend.Stats :=
  Backend.mkStats (count_session_messages session_id d)
                  (length (test_drives d))
                  (count_leads_named_in_session session_id d).

(** [messages = []] and the loop
    [for role, msg, *_ in get_session_messages(sid, 50)] that fills the
    page's messages; they stay empty if the read raises. *)
Definition load_messages (session_id : string) (d : DB) : list ChatMsg :=
  match get_session_messages session_id 50 d with
  | Return rows => map (fun row => mkChatMsg (fst row) (snd row)) rows
  | Raise _ => []
  end.



(** The button "Load Selected Session". *)
Definition load_selected_session (selected : string) (st : SessionState) (d : DB)
  : SessionState :=
  if String.eqb selected (session_id st) then st
  else mkSessionState selected (load_messages selected d).

(** *** The sidebar forms *)

(** [if x] for a text input. *)
Definition filled (x : string) : bool := negb (String.eqb x "").

(** The form "Save Your Interest": what is stored and what is shown. *)
Definition submit_lead_form
           (lead_name lead_phone lead_email lead_interest lead_budget lead_notes : string)
           (d : DB) : DB * string :=
  if andb (filled lead_name) (filled lead_phone)
  then (save_lead lead_name lead_phone (Some lead_email) (Some lead_interest)
                  (Some lead_budget) (Some lead_notes) d,
        "✅ Thank you! Our team will contact you soon.")
  else (d, "❌ Name and Phone are required").

(** The form "Book Test Drive"; [td_date] is the text of the picked date. *)
Definition submit_test_drive_form
           (td_name td_phone td_email td_car td_date td_time : string)
           (d : DB) : DB * string :=
  if andb (filled td_name) (andb (filled td_phone) (filled td_car))
  then (save_test_drive td_name td_phone (Some td_email) td_car td_date td_time d,
        "✅ Test drive booked! We'll confirm via phone.")
  else (d, "❌ All fields with * are required").

(** The form "Request Service". *)
Definition submit_service_form
           (srv_name srv_phone srv_car srv_type srv_desc : string)
           (d : DB) : DB * string :=
  if andb (filled srv_name) (andb (filled srv_phone) (filled srv_car))
  then (save_service_request srv_name srv_phone srv_car srv_type (Some srv_desc) d,
        "✅ Service request submitted!")
  else (d, "❌ All fields with * are required").

End Frontend.

(** * Properties *)

(** ** Strings *)

Section StringFacts.

Lemma startswith_app (w rest : string) : startswith w (w ++ rest) = true.
Proof.
  induction w as [|c w IH]; simpl.
  - reflexivity.
  - now rewrite Ascii.eqb_refl.
Qed.

Lemma startswith_inv (w s : string) :
  startswith w s = true -> exists rest, s = w ++ rest.
Proof.
  revert s; induction w as [|c w IH]; intros s H.
  - now exists s.
  - destruct s as [|d s]; simpl in H; [discriminate|].
    destruct (Ascii.eqb c d) eqn:E; [|discriminate].
    apply Ascii.eqb_eq in E; subst d.
    destruct (IH _ H) as [rest ->].
    now exists rest.
Qed.

Lemma contains_startswith (w s : string) :
  startswith w s = true -> contains w s = true.
Proof. destruct s; simpl; now intros ->. Qed.

(** [w in s] holds exactly when [s] is [before ++ w ++ after]. *)
Lemma contains_iff (w s : string) :
  contains w s = true <-> exists before after, s = before ++ w ++ after.
Proof.
  split.
  - induction s as [|c s IH]; simpl.
    + destruct (startswith w "") eqn:E; [|discriminate].
      intros _. destruct (startswith_inv _ _ E) as [rest Hr].
      now exists "", rest.
    + destruct (startswith w (String c s)) eqn:E.
      * intros _. destruct (startswith_inv _ _ E) as [rest Hr].
        now exists "", rest.
      * intros H. destruct (IH H) as (b & a & ->).
        now exists (String c b), a.
  - intros (b & a & ->).
    induction b as [|c b IH].
    + simpl. apply contains_startswith, startswith_app.
    + change (contains w (String c (b ++ w ++ a)) = true). simpl.
      rewrite IH. now destruct (startswith w (String c (b ++ w ++ a))).
Qed.

Lemma append_assoc (a b c : string) : (a ++ b) ++ c = a ++ b ++ c.
Proof. induction a; simpl; congruence. Qed.

Lemma append_nil_r (a : string) : a ++ "" = a.
Proof. induction a; simpl; congruence. Qed.

(** What is found in a text is found in every extension of it. *)
Lemma contains_app_l (w s rest : string) :
  contains w s = true -> contains w (s ++ rest) = true.
Proof.
  rewrite !contains_iff. intros (b & a & ->).
  exists b, (a ++ rest). now rewrite !append_assoc.
Qed.

Lemma lower_app (a b : string) : lower (a ++ b) = lower a ++ lower b.
Proof. induction a; simpl; congruence. Qed.

End StringFacts.

(** ** Knowledge base *)

Section KnowledgeBase.

(** Some keyword of the topic occurs in the lowered query. *)
Definition topic_matches (query_lower : string) (data : Topic) : bool :=
  existsb (fun keyword => contains keyword query_lower) (keywords data).

Lemma scan_keywords_spec kws data ql matches :
  scan_keywords kws data ql matches =
  (matches ++ if existsb (fun keyword => contains keyword ql) kws
              then [info data] else [])%list.
Proof.
  induction kws as [|k kws IH]; simpl.
  - now rewrite app_nil_r.
  - destruct (contains k ql); simpl; [reflexivity|apply IH].
Qed.

Lemma kb_loop_spec ql (topics : list Topic) (matches : list string) :
  fold_left (fun matches data => scan_keywords (keywords data) data ql matches)
            topics matches =
  (matches ++ map info (filter (topic_matches ql) topics))%list.
Proof.
  revert matches; induction topics as [|t topics IH]; intros matches; simpl.
  - now rewrite app_nil_r.
  - rewrite IH, scan_keywords_spec. unfold topic_matches at 2.
    destruct (existsb _ (keywords t)); simpl.
    + now rewrite <- app_assoc.
    + now rewrite app_nil_r.
Qed.

Lemma search_knowledge_base_filter query :
  search_knowledge_base query =
  map info (filter (topic_matches (lower query)) kb_values).
Proof. unfold search_knowledge_base. now rewrite kb_loop_spec. Qed.

(** A boolean test of pairwise distinctness. *)
Fixpoint distinct (l : list string) : bool :=
  match l with
  | [] => true
  | x :: rest => andb (negb (existsb (String.eqb x) rest)) (distinct rest)
  end.

Lemma distinct_NoDup l : distinct l = true -> NoDup l.
Proof.
  induction l as [|x l IH]; simpl; intros H; constructor.
  - apply andb_prop in H as [H _].
    intros Hin. apply negb_true_iff in H.
    assert (existsb (String.eqb x) l = true) as E.
    { apply existsb_exists. exists x. split; [assumption|apply String.eqb_refl]. }
    congruence.
  - apply IH. now apply andb_prop in H as [_ H].
Qed.

Lemma kb_infos_NoDup : NoDup (map info kb_values).
Proof. apply distinct_NoDup. vm_compute. reflexivity. Qed.

Lemma count_occ_map_filter (p : Topic -> bool) (l : list Topic) (t : Topic) :
  NoDup (map info l) -> In t l ->
  count_occ string_dec (map info (filter p l)) (info t) = if p t then 1 else 0.
Proof.
  induction l as [|x l IH]; simpl; intros Hnd Hin; [contradiction|].
  inversion Hnd as [|? ? Hx Hnd']; subst.
  assert (Hnot : ~ In (info x) (map info (filter p l))).
  { intros H. apply Hx. apply in_map_iff in H as (y & Hy & Hyin).
    apply in_map_iff. exists y. split; [assumption|].
    now apply filter_In in Hyin as [Hyin _]. }
  destruct Hin as [->|Hin].
  - destruct (p t); simpl.
    + destruct (string_dec (info t) (info t)); [|congruence].
      f_equal. now apply count_occ_not_In.
    + now apply count_occ_not_In.
  - assert (info x <> info t) as Hne.
    { intros E. apply Hx. rewrite E. now apply in_map. }
    destruct (p x); simpl.
    + destruct (string_dec (info x) (info t)); [contradiction|]. now apply IH.
    + now apply IH.
Qed.

End KnowledgeBase.

(** C4.  [search_knowledge_base] lower-cases the query and returns, in the
    order of the table, the info text of exactly the topics one of whose
    keywords occurs in the lowered query; the info of a matching topic is
    in the result once and that of any other topic not at all; when no
    keyword of any topic occurs in the lowered query the result is empty. *)
Theorem search_knowledge_base_matches (query : string) :
  search_knowledge_base query
    = map info (filter (topic_matches (lower query)) kb_values)
  /\ (forall data, In data kb_values ->
        count_occ string_dec (search_knowledge_base query) (info data)
          = if topic_matches (lower query) data then 1 else 0)
  /\ ((forall data keyword, In data kb_values -> In keyword (keywords data) ->
         contains keyword (lower query) = false) ->
      search_knowledge_base query = []).
Proof.
  split; [apply search_knowledge_base_filter|]. split.
  - intros data Hin. rewrite search_knowledge_base_filter.
    apply count_occ_map_filter; [apply kb_infos_NoDup|assumption].
  - intros Hnone. rewrite search_knowledge_base_filter.
    assert (forall l : list Topic, (forall d, In d l -> In d kb_values) ->
              filter (topic_matches (lower query)) l = []) as Hall.
    { induction l as [|d l IH]; intros Hsub; simpl; [reflexivity|].
      assert (topic_matches (lower query) d = false) as ->.
      { unfold topic_matches. apply not_true_iff_false. intros E.
        apply existsb_exists in E as (k & Hk & Hc).
        rewrite (Hnone d k) in Hc; [discriminate| |assumption].
        apply Hsub. now left. }
      apply IH. intros d' Hd'. apply Hsub. now right. }
    rewrite Hall; [reflexivity|auto].
Qed.

Definition financing : Topic :=
  mkTopic "We offer flexible financing options with 20-30% down payment and up to 5 years installment plans. Interest rates start from 12% per annum."
          ["finance"; "loan"; "installment"; "payment plan"; "emi"; "down payment"].

Lemma search_knowledge_base_matches_witness :
  (In financing kb_values
   /\ count_occ string_dec (search_knowledge_base "Hello THERE") (info financing) = 0)
  /\ (forall data keyword, In data kb_values -> In keyword (keywords data) ->
        contains keyword (lower "Hello THERE") = false)
  /\ search_knowledge_base "Hello THERE" = [].
Proof.
  assert (In financing kb_values) as Hin by (left; reflexivity).
  assert (forall data keyword, In data kb_values -> In keyword (keywords data) ->
            contains keyword (lower "Hello THERE") = false) as H.
  { intros data keyword Hd Hk.
    assert (forallb (fun d => forallb (fun k => negb (contains k (lower "Hello THERE")))
                                      (keywords d)) kb_values = true) as E
      by reflexivity.
    rewrite forallb_forall in E. specialize (E data Hd).
    rewrite forallb_forall in E. specialize (E keyword Hk).
    now apply negb_true_iff in E. }
  split; [split; [exact Hin|]|split; [exact H|]].
  - exact (proj1 (proj2 (search_knowledge_base_matches "Hello THERE")) financing Hin).
  - exact (proj2 (proj2 (search_knowledge_base_matches "Hello THERE")) H).
Defined.

(** ** Inventory queries *)

Section Like.

Lemma any_run_ext (f g : string -> bool) inside s :
  (forall t, f t = g t) -> any_run f inside s = any_run g inside s.
Proof.
  intros H. revert inside; induction s as [|b s IH]; intros inside; simpl.
  - apply H.
  - rewrite H, !IH. reflexivity.
Qed.

(** A rest of the pattern that matches the empty text matches after [%]:
    the run may take all of the text. *)
Lemma any_run_to_end (f : string -> bool) inside s :
  f "" = true -> any_run f inside s = true.
Proof.
  intros H. revert inside; induction s as [|b s IH]; intros inside; simpl.
  - exact H.
  - rewrite !IH. destruct (inside && is_continuation b); [reflexivity|].
    now destruct (f (String b s)).
Qed.

(** [%] alone matches every text. *)
Lemma pattern_compare_percent (s : string) : pattern_compare "%" s = true.
Proof.
  change (any_run (pattern_compare "") false s = true).
  now apply any_run_to_end.
Qed.

Lemma like_percent (s : string) : like "%" s = true.
Proof. apply pattern_compare_percent. Qed.

(** [%%] matches every text. *)
Lemma like_percent_percent (s : string) : like ("%" ++ "" ++ "%") s = true.
Proof.
  unfold like. change (c_string ("%" ++ "" ++ "%")) with (String "%"%char "%").
  change (any_run (pattern_compare "%") false (c_string s) = true).
  apply any_run_to_end. reflexivity.
Qed.








Lemma length_app_string (a b : string) :
  String.length (a ++ b) = String.length a + String.length b.
Proof. induction a as [|c a IH]; simpl; [reflexivity|]. now rewrite IH. Qed.

Lemma pattern_length (q : string) :
  Z.of_nat (String.length ("%" ++ q ++ "%")) = (Z.of_nat (String.length q) + 2)%Z.
Proof. rewrite !length_app_string. simpl. lia. Qed.

Lemma pattern_not_too_long (q : string) :
  (Z.of_nat (String.length q) < 49999)%Z ->
  like_pattern_too_long ("%" ++ q ++ "%") = false.
Proof.
  intros H. unfold like_pattern_too_long, like_pattern_limit.
  rewrite pattern_length. apply Z.ltb_ge. lia.
Qed.


Lemma is_continuation_lower b : is_continuation (lower_ascii b) = is_continuation b.
Proof. destruct b as [[] [] [] [] [] [] [] []]; reflexivity. Qed.

Lemma is_lead_lower b : is_lead (lower_ascii b) = is_lead b.
Proof. destruct b as [[] [] [] [] [] [] [] []]; reflexivity. Qed.




End Like.

Section OrderBy.

Definition year_ge (a b : CarRow) : Prop := (car_year b <= car_year a)%Z.

Definition year_is (y : Z) (c : CarRow) : bool := (car_year c =? y)%Z.

Lemma insert_by_year_perm r l : Permutation (r :: l) (insert_by_year r l).
Proof.
  induction l as [|x l IH]; simpl; [reflexivity|].
  destruct (car_year r <? car_year x)%Z; [|reflexivity].
  rewrite perm_swap. now constructor.
Qed.

Lemma order_by_year_desc_perm l : Permutation l (order_by_year_desc l).
Proof.
  induction l as [|x l IH]; simpl; [constructor|].
  rewrite <- insert_by_year_perm. now constructor.
Qed.

Lemma insert_by_year_sorted r l :
  StronglySorted year_ge l -> StronglySorted year_ge (insert_by_year r l).
Proof.
  induction 1 as [|x l Hl IH Hx]; simpl.
  - repeat constructor.
  - destruct (car_year r <? car_year x)%Z eqn:E.
    + constructor; [assumption|].
      apply Z.ltb_lt in E.
      rewrite <- (insert_by_year_perm r l).
      constructor; [unfold year_ge; lia|assumption].
    + apply Z.ltb_ge in E.
      constructor; [now constructor|].
      constructor; [exact E|].
      rewrite Forall_forall in *. intros y Hy. specialize (Hx y Hy).
      unfold year_ge in *. lia.
Qed.

Lemma order_by_year_desc_sorted l : StronglySorted year_ge (order_by_year_desc l).
Proof.
  induction l as [|x l IH]; simpl; [constructor|].
  now apply insert_by_year_sorted.
Qed.

(** Rows of one year keep their scan order. *)
Lemma insert_by_year_stable y r l :
  filter (year_is y) (insert_by_year r l) = filter (year_is y) (r :: l).
Proof.
  induction l as [|x l IH]; [reflexivity|].
  simpl insert_by_year. destruct (car_year r <? car_year x)%Z eqn:E; [|reflexivity].
  apply Z.ltb_lt in E.
  simpl. rewrite IH. simpl. unfold year_is.
  destruct (car_year x =? y)%Z eqn:Ex, (car_year r =? y)%Z eqn:Er; try reflexivity.
  apply Z.eqb_eq in Ex, Er. lia.
Qed.

Lemma order_by_year_desc_stable y l :
  filter (year_is y) (order_by_year_desc l) = filter (year_is y) l.
Proof.
  induction l as [|x l IH]; [reflexivity|].
  simpl order_by_year_desc. rewrite insert_by_year_stable.
  simpl. now rewrite IH.
Qed.

Lemma StronglySorted_firstn {A} (R : A -> A -> Prop) n (l : list A) :
  StronglySorted R l -> StronglySorted R (firstn n l).
Proof.
  revert n; induction l as [|x l IH]; intros n H.
  - rewrite firstn_nil. constructor.
  - destruct n as [|n]; simpl; [constructor|].
    inversion H as [|? ? Hl Hx]; subst. constructor; [now apply IH|].
    rewrite Forall_forall in *. intros y Hy. apply Hx.
    rewrite <- (firstn_skipn n l). apply in_or_app. now left.
Qed.

Lemma filter_firstn_prefix {A} (p : A -> bool) n (l : list A) :
  exists rest, filter p l = (filter p (firstn n l) ++ rest)%list.
Proof.
  exists (filter p (skipn n l)).
  now rewrite <- filter_app, firstn_skipn.
Qed.

End OrderBy.

Section CarSearch.


Lemma available_iff car : available car = true <-> car_status car = "available".
Proof. unfold available. apply String.eqb_eq. Qed.

Lemma select_matching_In pat d car :
  In car (select_matching pat d) <->
  In car (cars d) /\ car_status car = "available"
  /\ (like pat (car_make car) = true \/ like pat (car_model car) = true
      \/ like pat (car_features car) = true).
Proof.
  unfold select_matching. rewrite filter_In, andb_true_iff, !orb_true_iff.
  now rewrite available_iff.
Qed.

(** The error of LIKE on a pattern that is too long. *)
Definition pattern_too_complex : exn :=
  OperationalError "LIKE or GLOB pattern too complex".

(** The scan, row by row, against its outcome as a whole: it raises when
    the pattern is too long and some row passes the status test, and
    otherwise yields the rows that match. *)
Lemma scan_where_matching pat (rows : list CarRow) :
  scan_where (where_matching pat) rows
  = if andb (like_pattern_too_long pat) (existsb available rows)
    then Raise pattern_too_complex
    else Return (filter (fun c => andb (available c)
                                       (orb (like pat (car_make c))
                                            (orb (like pat (car_model c))
                                                 (like pat (car_features c)))))
                        rows).
Proof.
  induction rows as [|r rows IH]; cbn [scan_where existsb filter].
  - now rewrite andb_false_r.
  - rewrite IH. unfold where_matching, sql_like.
    destruct (like_pattern_too_long pat), (available r); cbn [bind andb orb];
      try reflexivity.
    + now destruct (existsb available rows).
    + now destruct (like pat (car_make r)), (like pat (car_model r)),
        (like pat (car_features r)).
Qed.

Lemma query_matching_eq pat d :
  query_matching pat d
  = if matching_query_fails pat d then Raise pattern_too_complex
    else Return (select_matching pat d).
Proof. apply scan_where_matching. Qed.

Lemma query_matching_runs pat d :
  matching_query_fails pat d = false ->
  query_matching pat d = Return (select_matching pat d).
Proof. intros H. now rewrite query_matching_eq, H. Qed.

Lemma query_matching_returns pat d found :
  query_matching pat d = Return found -> found = select_matching pat d.
Proof.
  rewrite query_matching_eq. destruct (matching_query_fails pat d); [discriminate|].
  now intros [= <-].
Qed.

Lemma short_pattern_runs q d :
  (Z.of_nat (String.length q) < 49999)%Z ->
  matching_query_fails ("%" ++ q ++ "%") d = false.
Proof.
  intros H. unfold matching_query_fails. now rewrite pattern_not_too_long.
Qed.

Lemma backend_search_cars_handles query d :
  Backend.search_cars query d = handle (Frontend.search_cars query d).
Proof. reflexivity. Qed.

End CarSearch.


Definition honda_civic : CarRow :=
  mkCarRow "Honda" "Civic" 2019 3200000 "52,000 km" "Petrol" "CVT"
           "Cruise Control, Sunroof, Leather Seats, Navigation" "available".


Definition sold_accord : CarRow :=
  mkCarRow "Honda" "Accord" 2018 4100000 "60,000 km" "Petrol" "Automatic"
           "Sunroof, Leather Seats" "sold".



(** A text of 49999 bytes: with the two [%] around it the pattern is one
    byte longer than LIKE accepts. *)
Definition long_text : string :=
  string_of_list_ascii (repeat "a"%char (N.to_nat 49999)).

(** The query is not read as plain text in three more ways: a NUL byte
    ends the pattern, so what follows it is not looked for; a pattern
    of more than 50000 bytes is an error as soon as a row is tested against
    it; and [_] stands for one character, of however many bytes. *)
Example search_cars_nul_query :
  Backend.search_cars (String Ascii.zero "zzz") (init_db empty_db)
  = Served (filter available (cars (init_db empty_db))).
Proof. vm_compute. reflexivity. Qed.

Example search_cars_long_query :
  Backend.search_cars long_text (init_db empty_db)
  = Failed 500 "LIKE or GLOB pattern too complex"
  /\ Frontend.search_cars long_text (init_db empty_db) = Raise pattern_too_complex
  /\ Backend.search_cars long_text empty_db = Served [].
Proof. repeat split; vm_compute; reflexivity. Qed.

Example like_underscore_character :
  like "_" "é" = true /\ like "__" "é" = false /\ like "%_é" "café" = true.
Proof. repeat split; vm_compute; reflexivity. Qed.

(** C10.  For the empty query, car search returns every row whose status is
    ["available"], in both files and in the query of the chat endpoint
    (whose pattern is built the same way), and it never raises. *)
Theorem search_cars_empty_query (d : DB) :
  Backend.search_cars "" d = Served (filter available (cars d))
  /\ Frontend.search_cars "" d = Return (filter available (cars d))
  /\ select_matching ("%" ++ "" ++ "%") d = filter available (cars d)
  /\ query_matching ("%" ++ "" ++ "%") d = Return (filter available (cars d))
  /\ forall car,
       (exists found, Backend.search_cars "" d = Served found /\ In car found) <->
       In car (cars d) /\ car_status car = "available".
Proof.
  assert (select_matching ("%" ++ "" ++ "%") d = filter available (cars d)) as E.
  { unfold select_matching. apply filter_ext. intros c.
    rewrite !like_percent_percent. simpl. apply andb_true_r. }
  assert (query_matching ("%" ++ "" ++ "%") d = Return (filter available (cars d))) as Q.
  { rewrite query_matching_runs, E; [reflexivity|]. now apply short_pattern_runs. }
  assert (Backend.search_cars "" d = Served (filter available (cars d))) as B.
  { unfold Backend.search_cars. cbv zeta. now rewrite Q. }
  split; [exact B|]. split; [exact Q|]. split; [exact E|]. split; [exact Q|].
  intros car. rewrite B. split.
  - intros (found & [= <-] & Hin). apply filter_In in Hin.
    now rewrite available_iff in Hin.
  - intros [Hin Hs]. eexists. split; [reflexivity|].
    apply filter_In. now rewrite available_iff.
Qed.

(** C9.  The inventory snapshot of a chat turn has at most 10 rows, all of
    status ["available"] and all rows of the store, with years in
    descending order; the rows of any one year are the first such rows of
    the store in insertion order.  The script takes the same rows (the
    unlimited query cut to its first 10). *)
Theorem snapshot_sorted_stable (d : DB) :
  let snapshot := select_available_limit 10 d in
  length snapshot <= 10
  /\ Forall (fun car => In car (cars d) /\ car_status car = "available") snapshot
  /\ StronglySorted year_ge snapshot
  /\ (forall y, exists later,
        filter (year_is y) (filter available (cars d))
        = (filter (year_is y) snapshot ++ later)%list)
  /\ firstn 10 (Frontend.get_all_cars d) = snapshot.
Proof.
  cbv zeta. unfold select_available_limit, select_available, Frontend.get_all_cars.
  split; [apply firstn_le_length|]. split; [|split; [|split]].
  - apply Forall_forall. intros car Hin.
    assert (In car (order_by_year_desc (filter available (cars d)))) as Hin'.
    { rewrite <- (firstn_skipn 10). apply in_or_app. left. exact Hin. }
    apply (Permutation_in _ (Permutation_sym (order_by_year_desc_perm _))) in Hin'.
    apply filter_In in Hin' as [Hc Ha]. split; [assumption|now apply available_iff].
  - apply StronglySorted_firstn, order_by_year_desc_sorted.
  - intros y. rewrite <- (order_by_year_desc_stable y).
    apply filter_firstn_prefix.
  - reflexivity.
Qed.

(** ** The generation API: fallbacks *)

Section Gateway.

(** The path candidates, content, parts, text of the response as the
    specification describes it: the value of the text field when every
    level on the way is there with the expected shape (a dict with the
    key, a list with a first item). *)
Definition field (key : string) (v : json) : option json :=
  match v with
  | JObj items => lookup key items
  | _ => None
  end.



(** A well-formed response body carrying the text [t]. *)
Definition reply_body (t : string) : json :=
  JObj [("candidates",
         JArr [JObj [("content",
                      JObj [("parts", JArr [JObj [("text", JStr t)]])])]])].

Lemma get_field v key default :
  get v key default =
  match v with
  | JObj _ => Return (match field key v with Some x => x | None => default end)
  | _ => Raise (AttributeError ("'" ++ type_name v ++ "' object has no attribute 'get'"))
  end.
Proof. now destruct v. Qed.




Lemma truthy_empty_text : truthy (JStr "") = false.
Proof. reflexivity. Qed.


Lemma suggest_action_str (t : string) :
  Backend.suggest_action (JStr t)
  = OK (if any_word_in Backend.trigger_words (lower t)
        then t ++ Backend.suggestion else t).
Proof. reflexivity. Qed.

Lemma suggest_action_couldnt_generate :
  Backend.suggest_action (JStr Backend.couldnt_generate) = OK Backend.couldnt_generate.
Proof. vm_compute. reflexivity. Qed.

Lemma suggest_action_having_trouble :
  Backend.suggest_action (JStr Backend.having_trouble) = OK Backend.having_trouble.
Proof. vm_compute. reflexivity. Qed.

Lemma truthy_str_nonempty t : t <> "" -> truthy (JStr t) = true.
Proof.
  intros Ht. simpl. apply negb_true_iff. now apply String.eqb_neq.
Qed.





End Gateway.




(** The one shape on which the API handler does raise: a text field that
    is true but no string fails at [response_text.lower()], outside the
    inner [try]. *)
Example backend_numeric_text_raises :
  Backend.respond
    (Return (JObj [("candidates",
                    JArr [JObj [("content",
                                 JObj [("parts", JArr [JObj [("text", JNum 5)]])])]])]))
  = HTTPException 500 "Internal server error".
Proof. reflexivity. Qed.

(** The API handler runs its inventory queries before it looks at the key:
    a message of 49999 bytes ends in a 500 although no key is set. *)
Example backend_long_message_without_key :
  Backend.chat None (fun _ => Return (reply_body "Hello"))
               (mkWorld (init_db empty_db) [])
               (Backend.mkChatRequest "s1" long_text None)
  = (HTTPException 500 "Internal server error", mkWorld (init_db empty_db) []).
Proof. vm_compute. reflexivity. Qed.

(** C6, as the code has it.  Without a key neither file sends anything.
    The script returns its own fixed text, which carries no contact
    number, whatever the query is.  The API
    handler returns its fixed text, which carries the contact number,
    once its inventory queries have run: that is for every message whose
    search pattern is within the length LIKE accepts, and for any message
    when no car is available. *)
Theorem no_key_no_call (key : option string) (post : string -> outcome)
        (w : World) (request : Backend.ChatRequest) (q h : string) :
  key_missing key = true ->
  snd (Backend.chat key post w request) = w
  /\ (matching_query_fails ("%" ++ Backend.user_message request ++ "%") (db w) = false ->
      Backend.chat key post w request = (OK Backend.not_configured, w))
  /\ ((Z.of_nat (String.length (Backend.user_message request)) < 49999)%Z ->
      Backend.chat key post w request = (OK Backend.not_configured, w))
  /\ contains support_phone Backend.not_configured = true
  /\ Frontend.ask_gemini key post q h w = Return (Frontend.key_not_configured, w)
  /\ contains support_phone Frontend.key_not_configured = false.
Proof.
  intros Hk. unfold Backend.chat, Frontend.ask_gemini. rewrite Hk.
  rewrite query_matching_eq.
  split; [now destruct (matching_query_fails _ _)|].
  split; [now intros ->|].
  split; [intros Hl; now rewrite (short_pattern_runs _ (db w) Hl)|].
  split; [vm_compute; reflexivity|]. split; [reflexivity|].
  vm_compute. reflexivity.
Qed.

Lemma no_key_no_call_witness :
  key_missing (Some "") = true
  /\ (Z.of_nat (String.length "any loan?") < 49999)%Z
  /\ Backend.chat (Some "") (fun _ => Return (reply_body "Hello"))
                  (mkWorld (init_db empty_db) [])
                  (Backend.mkChatRequest "s1" "any loan?" None)
     = (OK Backend.not_configured, mkWorld (init_db empty_db) []).
Proof.
  split; [reflexivity|].
  assert (Z.of_nat (String.length "any loan?") < 49999)%Z as Hl
    by (vm_compute; reflexivity).
  split; [exact Hl|].
  refine (proj1 (proj2 (proj2
            (no_key_no_call (Some "") (fun _ => Return (reply_body "Hello"))
                            (mkWorld (init_db empty_db) [])
                            (Backend.mkChatRequest "s1" "any loan?" None) "" ""
                            eq_refl))) Hl).
Defined.

(** C6 as stated fails in the script: its text for a missing key does not
    carry the contact number. *)
Lemma no_key_phone_counterexample :
  Frontend.ask_gemini None (fun _ => Return (reply_body "Hello")) "hi" ""
                      (mkWorld (init_db empty_db) [])
  = Return ("⚠️ AI key not configured in frontend. Please configure GEMINI_API_KEY in .env or Streamlit secrets.",
            mkWorld (init_db empty_db) [])
  /\ contains support_phone Frontend.key_not_configured = false.
Proof. split; vm_compute; reflexivity. Qed.

(** ** The suggestion line *)

Lemma frontend_answer_reply_body (t : string) :
  Frontend.answer_of (Return (reply_body t))
  = if any_word_in Frontend.trigger_words (lower t) then t ++ Frontend.tip else t.
Proof. reflexivity. Qed.

Lemma backend_respond_reply_body (t : string) :
  t <> "" -> Backend.respond (Return (reply_body t)) = Backend.suggest_action (JStr t).
Proof.
  intros Ht. unfold Backend.respond. f_equal.
  unfold Backend.response_after_try. cbn [bind].
  change (Backend.extract_text (reply_body t)) with (Return (JStr t)).
  cbn [bind]. now rewrite (truthy_str_nonempty t Ht).
Qed.

(** C7, as the code has it.  In the API handler a text in which one of
    "interested", "would you like", "book", "schedule", "test drive" occurs,
    letter case aside, is returned with the suggestion line appended, and a
    text with none of them unmodified.  The script does the same with its
    own words, "interested", "would you like", "shall i", "book",
    "schedule", and its own tip line. *)
Theorem suggestion_appended (t : string) :
  (any_word_in ["interested"; "would you like"; "book"; "schedule"; "test drive"]
               (lower t) = true ->
   Backend.suggest_action (JStr t) = OK (t ++ Backend.suggestion))
  /\ (any_word_in ["interested"; "would you like"; "book"; "schedule"; "test drive"]
                  (lower t) = false ->
      Backend.suggest_action (JStr t) = OK t)
  /\ (t <> "" ->
      Backend.respond (Return (reply_body t)) = Backend.suggest_action (JStr t))
  /\ (any_word_in ["interested"; "would you like"; "shall i"; "book"; "schedule"]
                  (lower t) = true ->
      Frontend.answer_of (Return (reply_body t)) = t ++ Frontend.tip)
  /\ (any_word_in ["interested"; "would you like"; "shall i"; "book"; "schedule"]
                  (lower t) = false ->
      Frontend.answer_of (Return (reply_body t)) = t).
Proof.
  rewrite suggest_action_str, frontend_answer_reply_body.
  change Backend.trigger_words
    with ["interested"; "would you like"; "book"; "schedule"; "test drive"].
  change Frontend.trigger_words
    with ["interested"; "would you like"; "shall i"; "book"; "schedule"].
  repeat split; try (intros ->; reflexivity).
  apply backend_respond_reply_body.
Qed.

Lemma suggestion_appended_witness :
  (any_word_in ["interested"; "would you like"; "book"; "schedule"; "test drive"]
               (lower "You can BOOK it today.") = true
   /\ Backend.suggest_action (JStr "You can BOOK it today.")
      = OK ("You can BOOK it today." ++ Backend.suggestion))
  /\ (any_word_in ["interested"; "would you like"; "book"; "schedule"; "test drive"]
                  (lower "We are open.") = false
      /\ Backend.suggest_action (JStr "We are open.") = OK "We are open.")
  /\ ("We are open." <> ""
      /\ Backend.respond (Return (reply_body "We are open."))
         = Backend.suggest_action (JStr "We are open."))
  /\ (any_word_in ["interested"; "would you like"; "shall i"; "book"; "schedule"]
                  (lower "You can BOOK it today.") = true
      /\ Frontend.answer_of (Return (reply_body "You can BOOK it today."))
         = "You can BOOK it today." ++ Frontend.tip)
  /\ (any_word_in ["interested"; "would you like"; "shall i"; "book"; "schedule"]
                  (lower "We are open.") = false
      /\ Frontend.answer_of (Return (reply_body "We are open.")) = "We are open.").
Proof.
  pose proof (suggestion_appended "You can BOOK it today.") as (B1 & _ & _ & F1 & _).
  pose proof (suggestion_appended "We are open.") as (_ & B2 & B3 & _ & F2).
  split; [split; [reflexivity|apply B1; reflexivity]|].
  split; [split; [reflexivity|apply B2; reflexivity]|].
  split; [split; [discriminate|apply B3; discriminate]|].
  split; [split; [reflexivity|apply F1; reflexivity]|].
  split; [reflexivity|apply F2; reflexivity].
Defined.

(** C7 as stated fails in the script: a text with "test drive" and none of
    the script's words comes back unmodified, and a text with "shall i"
    and none of the listed words comes back with the tip line. *)
Lemma suggestion_words_counterexample :
  (any_word_in ["interested"; "would you like"; "book"; "schedule"; "test drive"]
               (lower "Come for a test drive.") = true
   /\ Frontend.answer_of (Return (reply_body "Come for a test drive."))
      = "Come for a test drive.")
  /\ (any_word_in ["interested"; "would you like"; "book"; "schedule"; "test drive"]
                  (lower "Shall I call you?") = false
      /\ Frontend.answer_of (Return (reply_body "Shall I call you?"))
         <> "Shall I call you?").
Proof.
  split; split; try (vm_compute; reflexivity).
  vm_compute. discriminate.
Qed.

(** ** Conversation history *)

Section History.

Lemma last_n_length {A} n (l : list A) : length (last_n n l) = Nat.min (length l) n.
Proof. unfold last_n. rewrite length_skipn. lia. Qed.

Lemma last_n_suffix {A} n (l : list A) : exists older, l = (older ++ last_n n l)%list.
Proof.
  exists (firstn (length l - n) l). unfold last_n. now rewrite firstn_skipn.
Qed.

(** The window over a list that has just been extended by one entry. *)
Lemma last_n_snoc {A} n (l : list A) (x : A) :
  last_n (S n) (l ++ [x]) = (last_n n l ++ [x])%list.
Proof.
  unfold last_n. rewrite length_app. simpl length.
  replace (length l + 1 - S n) with (length l - n) by lia.
  rewrite skipn_app.
  replace (length l - n - length l) with 0 by lia.
  reflexivity.
Qed.

(** The API handler renders the last 10 entries of the history it was
    sent, oldest first, and nothing else. *)
Lemma backend_history_window (entries : list Backend.history_entry) :
  Backend.history_text (Some entries)
  = join nl (map Backend.history_line (last_n 10 entries))
  /\ length (last_n 10 entries) = Nat.min (length entries) 10
  /\ exists older, entries = (older ++ last_n 10 entries)%list.
Proof.
  split; [|split; [apply last_n_length|apply last_n_suffix]].
  destruct entries; reflexivity.
Qed.

(** [ask_gemini] as a whole: the fixed text without a key, the error of
    the car search, or the answer to the prompt it has sent. *)
Lemma frontend_ask_gemini_eq key post q h w :
  Frontend.ask_gemini key post q h w
  = if key_missing key then Return (Frontend.key_not_configured, w)
    else if matching_query_fails ("%" ++ q ++ "%") (db w)
         then Raise pattern_too_complex
         else Return (Frontend.answer_of (post (Frontend.full_prompt (db w) q h)),
                      mkWorld (db w) (posted w ++ [Frontend.full_prompt (db w) q h])%list).
Proof.
  unfold Frontend.ask_gemini, Frontend.get_car_details, Frontend.search_cars,
    Frontend.full_prompt.
  cbv zeta. rewrite query_matching_eq.
  destruct (key_missing key); [reflexivity|].
  now destruct (matching_query_fails _ _).
Qed.

(** The call of a turn returns: there is no key to send with, or the car
    search runs to its end. *)
Definition call_returns (key : option string) (u : string) (d : DB) : Prop :=
  key_missing key = true \/ matching_query_fails ("%" ++ u ++ "%") d = false.

Lemma frontend_ask_gemini_returns key post q h w :
  call_returns key q (db w) ->
  exists r posts,
    Frontend.ask_gemini key post q h w = Return (r, mkWorld (db w) posts).
Proof.
  intros H. rewrite frontend_ask_gemini_eq.
  destruct (key_missing key) eqn:Hk.
  - exists Frontend.key_not_configured, (posted w). now destruct w.
  - destruct H as [H|H]; [congruence|]. rewrite H. eauto.
Qed.

Lemma matching_query_fails_save_message pat sid r t d :
  matching_query_fails pat (Frontend.save_message sid r t d)
  = matching_query_fails pat d.
Proof. reflexivity. Qed.

(** A turn whose call returns. *)
Lemma frontend_on_chat_input_eq key post u st w :
  u <> "" -> call_returns key u (db w) ->
  exists r posts,
    Frontend.on_chat_input key post (Some u) st w
    = (Frontend.mkSessionState (Frontend.session_id st)
         ((Frontend.st_messages st ++ [Frontend.mkChatMsg "user" u])
          ++ [Frontend.mkChatMsg "assistant" r]),
       mkWorld (Frontend.save_message (Frontend.session_id st) "assistant" r
                  (Frontend.save_message (Frontend.session_id st) "user" u (db w)))
               posts).
Proof.
  intros Hu Hc. unfold Frontend.on_chat_input.
  apply String.eqb_neq in Hu. rewrite Hu. cbv zeta.
  destruct (frontend_ask_gemini_returns key post u
              (join nl (map Frontend.history_line
                          (last_n 10 (Frontend.st_messages st
                                      ++ [Frontend.mkChatMsg "user" u]))))
              (mkWorld (Frontend.save_message (Frontend.session_id st) "user" u (db w))
                       (posted w)))
    as (r & posts & E).
  { exact Hc. }
  rewrite E. now exists r, posts.
Qed.

(** A turn whose call raises ends with the user message alone. *)
Lemma frontend_on_chat_input_raises key post u st w :
  u <> "" -> key_missing key = false ->
  matching_query_fails ("%" ++ u ++ "%") (db w) = true ->
  Frontend.on_chat_input key post (Some u) st w
  = (Frontend.mkSessionState (Frontend.session_id st)
       (Frontend.st_messages st ++ [Frontend.mkChatMsg "user" u]),
     mkWorld (Frontend.save_message (Frontend.session_id st) "user" u (db w))
             (posted w)).
Proof.
  intros Hu Hk Hf. unfold Frontend.on_chat_input.
  apply String.eqb_neq in Hu. rewrite Hu. cbv zeta.
  rewrite frontend_ask_gemini_eq, Hk. cbn [db].
  now rewrite matching_query_fails_save_message, Hf.
Qed.

Lemma backend_chat_db key post w request :
  db (snd (Backend.chat key post w request)) = db w.
Proof.
  unfold Backend.chat.
  destruct (query_matching _ _); [|reflexivity].
  now destruct (key_missing key).
Qed.

End History.

(** C3.  In the script the history section of the prompt is built after
    the current message has joined the page's messages: for a submitted
    text [u] the prompt that is sent holds the last 9 earlier turns followed
    by the line ["user: u"], so the current query is in the history section,
    and of the earlier turns one fewer than ten is kept.  That prompt is
    the one thing sent; nothing is sent when the car search of the turn
    fails. *)
Theorem frontend_history_holds_current_query
        (key : option string) (post : string -> outcome)
        (st : Frontend.SessionState) (w : World) (u : string) :
  u <> "" -> key_missing key = false ->
  posted (snd (Frontend.on_chat_input key post (Some u) st w))
  = (posted w ++
     if matching_query_fails ("%" ++ u ++ "%") (db w) then []
     else [Frontend.full_prompt
             (Frontend.save_message (Frontend.session_id st) "user" u (db w)) u
             (join nl (map Frontend.history_line (last_n 9 (Frontend.st_messages st))
                       ++ [("user: " ++ u)%string]))])%list.
Proof.
  intros Hu Hk.
  destruct (matching_query_fails ("%" ++ u ++ "%") (db w)) eqn:Hf.
  - rewrite frontend_on_chat_input_raises by assumption.
    cbn [snd posted]. now rewrite app_nil_r.
  - unfold Frontend.on_chat_input.
    apply String.eqb_neq in Hu. rewrite Hu. cbv zeta.
    rewrite frontend_ask_gemini_eq, Hk. cbn [db].
    rewrite matching_query_fails_save_message, Hf. cbn [snd posted].
    now rewrite last_n_snoc, map_app.
Qed.

Lemma frontend_history_holds_current_query_witness :
  "hello" <> "" /\ key_missing (Some "k") = false
  /\ posted (snd (Frontend.on_chat_input
                    (Some "k") (fun _ => Return (reply_body "Hi!")) (Some "hello")
                    (Frontend.mkSessionState "s1" [Frontend.mkChatMsg "assistant" "Welcome"])
                    (mkWorld (init_db empty_db) [])))
     = [Frontend.full_prompt
          (Frontend.save_message "s1" "user" "hello" (init_db empty_db)) "hello"
          ("assistant: Welcome" ++ nl ++ "user: hello")].
Proof.
  split; [discriminate|]. split; [reflexivity|].
  apply (frontend_history_holds_current_query
           (Some "k") (fun _ => Return (reply_body "Hi!"))
           (Frontend.mkSessionState "s1" [Frontend.mkChatMsg "assistant" "Welcome"])
           (mkWorld (init_db empty_db) []) "hello");
    [discriminate|reflexivity].
Defined.

(** ** Persistence of a chat turn *)




(** The car search of the script is outside its [try]: with a key and a
    text of 49999 bytes the turn ends in the error, the user row stored
    and no reply after it. *)
Example frontend_long_text_turn :
  Frontend.ask_gemini (Some "k") (fun _ => Return (reply_body "Hello")) long_text ""
                      (mkWorld (init_db empty_db) [])
  = Raise pattern_too_complex
  /\ messages (db (snd (Frontend.on_chat_input
                          (Some "k") (fun _ => Return (reply_body "Hello"))
                          (Some long_text) (Frontend.mkSessionState "s1" [])
                          (mkWorld (init_db empty_db) []))))
     = [mkMessageRow "s1" "user" long_text].
Proof.
  split; [vm_compute; reflexivity|].
  rewrite frontend_on_chat_input_raises; [reflexivity| |reflexivity|].
  - intros E. assert (Z.of_nat (String.length long_text) = 0%Z) as H
      by (rewrite E; reflexivity).
    vm_compute in H. discriminate H.
  - vm_compute. reflexivity.
Qed.

(** ** Write operations *)

Section Trim.

(** [t] neither starts nor ends with whitespace. *)
Definition trimmed (t : string) : Prop :=
  (forall c, first_char t = Some c -> isspace c = false)
  /\ (forall c, last_char t = Some c -> isspace c = false).

(** [t] is [s] with its leading and trailing whitespace removed. *)
Definition is_trim_of (s t : string) : Prop :=
  trimmed t
  /\ exists before after,
       s = before ++ t ++ after
       /\ all_space before = true /\ all_space after = true.

Lemma lstrip_split (s : string) :
  exists before, s = before ++ lstrip s /\ all_space before = true.
Proof.
  induction s as [|c s (before & E & Hb)]; simpl.
  - now exists "".
  - destruct (isspace c) eqn:Ec.
    + exists (String c before). simpl. rewrite Ec, Hb. split; [congruence|reflexivity].
    + now exists "".
Qed.

Lemma lstrip_first (s : string) (c : ascii) :
  first_char (lstrip s) = Some c -> isspace c = false.
Proof.
  induction s as [|d s IH]; simpl; [discriminate|].
  destruct (isspace d) eqn:Ed; [exact IH|].
  simpl. now intros [= <-].
Qed.

Lemma rstrip_split (s : string) :
  exists after, s = rstrip s ++ after /\ all_space after = true.
Proof.
  induction s as [|c s (after & E & Ha)]; simpl.
  - now exists "".
  - destruct (rstrip s) as [|d r] eqn:Er.
    + destruct (isspace c) eqn:Ec.
      * exists (String c after). simpl in *. rewrite Ec, Ha. split; [congruence|reflexivity].
      * exists after. simpl in *. split; [congruence|assumption].
    + exists after. simpl in *. split; [congruence|assumption].
Qed.

Lemma rstrip_last (s : string) (c : ascii) :
  last_char (rstrip s) = Some c -> isspace c = false.
Proof.
  induction s as [|d s IH]; simpl; [discriminate|].
  destruct (rstrip s) as [|e r] eqn:Er.
  - destruct (isspace d) eqn:Ed; simpl; [discriminate|]. now intros [= <-].
  - exact IH.
Qed.

Lemma rstrip_first (s : string) (c : ascii) :
  first_char (rstrip s) = Some c -> first_char s = Some c.
Proof.
  destruct s as [|d s]; simpl; [discriminate|].
  destruct (rstrip s); [destruct (isspace d)|]; simpl; congruence.
Qed.

Lemma strip_is_trim (s : string) : is_trim_of s (strip s).
Proof.
  unfold is_trim_of, trimmed, strip. split; [split|].
  - intros c H. apply rstrip_first in H. now apply lstrip_first in H.
  - apply rstrip_last.
  - destruct (lstrip_split s) as (before & E1 & Hb).
    destruct (rstrip_split (lstrip s)) as (after & E2 & Ha).
    exists before, after. split; [|now split].
    rewrite <- E2. exact E1.
Qed.

(** How a text argument and an optional text argument are stored. *)
Definition stored_trimmed (input stored : string) : Prop := is_trim_of input stored.

Definition stored_optional (input : option string) (stored : string) : Prop :=
  match input with
  | Some v => is_trim_of v stored
  | None => stored = ""
  end.

Lemma strip_optional (input : option string) :
  stored_optional input (strip (Backend.or_empty input)).
Proof. destruct input; simpl; [apply strip_is_trim|reflexivity]. Qed.

End Trim.

(** C8, as the code has it.  A lead, a test-drive booking and a service
    request are stored by the API with every text field trimmed of leading
    and trailing whitespace and every absent optional field as the empty
    string; the script stores leads and service requests the same way, and
    of a booking the name, phone, email and car model.  A chat message is
    stored as given, in both files. *)
Theorem writes_trim_text_fields
        (d : DB) (lead : Backend.Lead) (test_drive : Backend.TestDrive)
        (service : Backend.ServiceRequest) (message : Backend.Message) :
  (exists row,
     leads (Backend.create_lead lead d) = (leads d ++ [row])%list
     /\ Frontend.save_lead (Backend.name lead) (Backend.phone lead)
          (Backend.email lead) (Backend.interested_in lead)
          (Backend.budget lead) (Backend.notes lead) d
        = Backend.create_lead lead d
     /\ stored_trimmed (Backend.name lead) (lead_name row)
     /\ stored_trimmed (Backend.phone lead) (lead_phone row)
     /\ stored_optional (Backend.email lead) (lead_email row)
     /\ stored_optional (Backend.interested_in lead) (lead_interested_in row)
     /\ stored_optional (Backend.budget lead) (lead_budget row)
     /\ stored_optional (Backend.notes lead) (lead_notes row))
  /\ (exists row,
        test_drives (Backend.create_test_drive test_drive d)
        = (test_drives d ++ [row])%list
        /\ stored_trimmed (Backend.td_req_customer_name test_drive) (td_customer_name row)
        /\ stored_trimmed (Backend.td_req_phone test_drive) (td_phone row)
        /\ stored_optional (Backend.td_req_email test_drive) (td_email row)
        /\ stored_trimmed (Backend.td_req_car_model test_drive) (td_car_model row)
        /\ stored_trimmed (Backend.td_req_preferred_date test_drive) (td_preferred_date row)
        /\ stored_trimmed (Backend.td_req_preferred_time test_drive) (td_preferred_time row))
  /\ (exists row,
        test_drives
          (Frontend.save_test_drive
             (Backend.td_req_customer_name test_drive) (Backend.td_req_phone test_drive)
             (Backend.td_req_email test_drive) (Backend.td_req_car_model test_drive)
             (Backend.td_req_preferred_date test_drive)
             (Backend.td_req_preferred_time test_drive) d)
        = (test_drives d ++ [row])%list
        /\ stored_trimmed (Backend.td_req_customer_name test_drive) (td_customer_name row)
        /\ stored_trimmed (Backend.td_req_phone test_drive) (td_phone row)
        /\ stored_optional (Backend.td_req_email test_drive) (td_email row)
        /\ stored_trimmed (Backend.td_req_car_model test_drive) (td_car_model row))
  /\ (exists row,
        service_requests (Backend.create_service_request service d)
        = (service_requests d ++ [row])%list
        /\ Frontend.save_service_request
             (Backend.sr_req_customer_name service) (Backend.sr_req_phone service)
             (Backend.sr_req_car_model service) (Backend.sr_req_service_type service)
             (Backend.sr_req_description service) d
           = Backend.create_service_request service d
        /\ stored_trimmed (Backend.sr_req_customer_name service) (sr_customer_name row)
        /\ stored_trimmed (Backend.sr_req_phone service) (sr_phone row)
        /\ stored_trimmed (Backend.sr_req_car_model service) (sr_car_model row)
        /\ stored_trimmed (Backend.sr_req_service_type service) (sr_service_type row)
        /\ stored_optional (Backend.sr_req_description service) (sr_description row))
  /\ messages (Backend.save_message message d)
     = (messages d ++ [mkMessageRow (Backend.session_id message) (Backend.role message)
                                    (Backend.text message)])%list
  /\ Frontend.save_message (Backend.session_id message) (Backend.role message)
                           (Backend.text message) d
     = Backend.save_message message d.
Proof.
  unfold stored_trimmed.
  split; [|split; [|split; [|split; [|split]]]].
  - eexists. split; [reflexivity|]. split; [reflexivity|]. cbn.
    repeat split; first [apply strip_is_trim | apply strip_optional].
  - eexists. split; [reflexivity|]. cbn.
    repeat split; first [apply strip_is_trim | apply strip_optional].
  - eexists. split; [reflexivity|]. cbn.
    repeat split; first [apply strip_is_trim | apply strip_optional].
  - eexists. split; [reflexivity|]. split; [reflexivity|]. cbn.
    repeat split; first [apply strip_is_trim | apply strip_optional].
  - reflexivity.
  - reflexivity.
Qed.

(** C8 as stated fails for messages: the text is stored with the
    whitespace it came with. *)
Lemma save_message_untrimmed_counterexample :
  messages (Backend.save_message (Backend.mkMessage "s1" "user" "  hi ") empty_db)
  = [mkMessageRow "s1" "user" "  hi "]
  /\ ~ trimmed "  hi "
  /\ strip "  hi " = "hi".
Proof.
  split; [reflexivity|]. split; [|reflexivity].
  intros [H _]. specialize (H " "%char eq_refl). discriminate.
Qed.

(** * Further properties of the two files *)

(** ** Reading messages back *)

Section MessageHistory.

(** The pairs (role, text) of a session, oldest first. *)
Definition session_history (session_id : string) (d : DB) : list (string * string) :=
  map (fun r => (msg_role r, msg_text r))
      (filter (of_session session_id) (messages d)).

Lemma rev_firstn_rev {A} n (l : list A) : rev (firstn n (rev l)) = last_n n l.
Proof. unfold last_n. now rewrite firstn_rev, rev_involutive. Qed.

Lemma last_n_all {A} n (l : list A) : length l <= n -> last_n n l = l.
Proof.
  intros H. unfold last_n. replace (length l - n) with 0 by lia. reflexivity.
Qed.

(** What the statement of [GET /messages] yields once its limit is bound. *)
Definition window (limit : Z) (history : list (string * string))
  : list (string * string) :=
  if (limit <? 0)%Z then history else last_n (Z.to_nat limit) history.

(** The error of binding an int that SQLite cannot hold. *)
Definition int_too_large : string :=
  "Python int too large to convert to SQLite INTEGER".

Lemma rev_select_session_messages session_id limit d :
  rev (select_session_messages session_id limit d)
  = window limit (session_history session_id d).
Proof.
  unfold select_session_messages, sql_limit, session_history, window.
  rewrite map_rev.
  destruct (limit <? 0)%Z; [apply rev_involutive|apply rev_firstn_rev].
Qed.

Lemma get_session_messages_eq session_id limit d :
  Frontend.get_session_messages session_id limit d
  = if fits_int64 limit
    then Return (window limit (session_history session_id d))
    else Raise (OverflowError int_too_large).
Proof.
  unfold Frontend.get_session_messages, query_session_messages, bind_int.
  destruct (fits_int64 limit); cbn [bind]; [|reflexivity].
  now rewrite rev_select_session_messages.
Qed.

Lemma get_messages_eq session_id limit d :
  Backend.get_messages session_id limit d
  = if fits_int64 limit
    then Served (window limit (session_history session_id d))
    else Failed 500 int_too_large.
Proof.
  change (Backend.get_messages session_id limit d)
    with (handle (Frontend.get_session_messages session_id limit d)).
  rewrite get_session_messages_eq. now destruct (fits_int64 limit).
Qed.

Lemma fits_int64_iff limit :
  fits_int64 limit = true <-> (- 2 ^ 63 <= limit < 2 ^ 63)%Z.
Proof.
  unfold fits_int64. rewrite andb_true_iff, Z.leb_le, Z.ltb_lt. tauto.
Qed.

Lemma session_history_save m sid d :
  session_history sid (Backend.save_message m d)
  = (session_history sid d
     ++ if String.eqb (Backend.session_id m) sid
        then [(Backend.role m, Backend.text m)] else [])%list.
Proof.
  unfold session_history, Backend.save_message, insert_message. cbn [messages].
  rewrite filter_app, map_app. f_equal.
  unfold filter, of_session. cbn [msg_session_id].
  now destruct (String.eqb (Backend.session_id m) sid).
Qed.

Lemma count_session_history sid d :
  count_session_messages sid d = length (session_history sid d).
Proof. unfold count_session_messages, session_history. now rewrite length_map. Qed.

End MessageHistory.

(** X1.  Reading a session back gives its messages only, oldest first:
    with a limit [n] from 0 up to 2^63 - 1 the last [n] of them, with a
    negative limit down to -2^63 all of them; a limit outside the signed 64
    bits cannot be bound and the endpoint answers 500 with the text of the
    error.  The endpoint is the script's helper with its error turned into
    that answer. *)
Theorem get_messages_window (session_id : string) (limit : Z) (d : DB) :
  ((0 <= limit < 2 ^ 63)%Z ->
   Backend.get_messages session_id limit d
   = Served (last_n (Z.to_nat limit) (session_history session_id d))
   /\ Frontend.get_session_messages session_id limit d
      = Return (last_n (Z.to_nat limit) (session_history session_id d)))
  /\ ((- 2 ^ 63 <= limit < 0)%Z ->
      Backend.get_messages session_id limit d = Served (session_history session_id d)
      /\ Frontend.get_session_messages session_id limit d
         = Return (session_history session_id d))
  /\ ((limit < - 2 ^ 63 \/ 2 ^ 63 <= limit)%Z ->
      Backend.get_messages session_id limit d
      = Failed 500 "Python int too large to convert to SQLite INTEGER"
      /\ Frontend.get_session_messages session_id limit d
         = Raise (OverflowError "Python int too large to convert to SQLite INTEGER"))
  /\ Backend.get_messages session_id limit d
     = handle (Frontend.get_session_messages session_id limit d).
Proof.
  rewrite get_messages_eq, get_session_messages_eq. unfold window.
  split; [|split; [|split]].
  - intros H. rewrite (proj2 (fits_int64_iff limit)) by lia.
    destruct (Z.ltb_spec limit 0); [lia|]. now split.
  - intros H. rewrite (proj2 (fits_int64_iff limit)) by lia.
    destruct (Z.ltb_spec limit 0); [|lia]. now split.
  - intros H. destruct (fits_int64 limit) eqn:E; [|now split].
    apply fits_int64_iff in E. lia.
  - now destruct (fits_int64 limit).
Qed.

Definition three_messages : DB :=
  Backend.save_message (Backend.mkMessage "s1" "user" "thanks")
    (Backend.save_message (Backend.mkMessage "s2" "user" "other")
       (Backend.save_message (Backend.mkMessage "s1" "assistant" "Hello")
          (Backend.save_message (Backend.mkMessage "s1" "user" "hi") empty_db))).

Lemma get_messages_window_witness :
  ((0 <= 2 < 2 ^ 63)%Z
   /\ Backend.get_messages "s1" 2 three_messages
      = Served [("assistant", "Hello"); ("user", "thanks")])
  /\ ((- 2 ^ 63 <= -1 < 0)%Z
      /\ Backend.get_messages "s1" (-1) three_messages
         = Served [("user", "hi"); ("assistant", "Hello"); ("user", "thanks")])
  /\ ((2 ^ 63 < - 2 ^ 63 \/ 2 ^ 63 <= 2 ^ 63)%Z
      /\ Backend.get_messages "s1" (2 ^ 63) three_messages
         = Failed 500 "Python int too large to convert to SQLite INTEGER").
Proof.
  split; [|split]; (split; [lia|]).
  - apply (proj1 (get_messages_window "s1" 2 three_messages)). lia.
  - apply (proj1 (proj2 (get_messages_window "s1" (-1) three_messages))). lia.
  - apply (proj1 (proj2 (proj2 (get_messages_window "s1" (2 ^ 63) three_messages)))).
    lia.
Defined.

(** X2.  A saved message is the last one read back for its session,
    whatever non-zero limit within the signed 64 bits is asked for, and
    reading any other session is unaffected, whatever the limit. *)
Theorem save_then_get_messages (message : Backend.Message) (limit : Z) (d : DB)
        (other : string) :
  (limit <> 0%Z -> (- 2 ^ 63 <= limit < 2 ^ 63)%Z ->
   exists earlier,
     Backend.get_messages (Backend.session_id message) limit
                          (Backend.save_message message d)
     = Served (earlier ++ [(Backend.role message, Backend.text message)])%list)
  /\ (other <> Backend.session_id message ->
      Backend.get_messages other limit (Backend.save_message message d)
      = Backend.get_messages other limit d).
Proof.
  rewrite !get_messages_eq, !session_history_save. unfold window. split.
  - intros Hl Hr. rewrite String.eqb_refl.
    rewrite (proj2 (fits_int64_iff limit) Hr).
    destruct (limit <? 0)%Z eqn:E; [eexists; reflexivity|].
    apply Z.ltb_ge in E.
    destruct (Z.to_nat limit) as [|n] eqn:En; [lia|].
    rewrite last_n_snoc. eexists; reflexivity.
  - intros Ho.
    assert (String.eqb (Backend.session_id message) other = false) as ->
      by (apply String.eqb_neq; congruence).
    now rewrite app_nil_r.
Qed.

Lemma save_then_get_messages_witness :
  (1%Z <> 0%Z /\ (- 2 ^ 63 <= 1 < 2 ^ 63)%Z
   /\ exists earlier,
        Backend.get_messages "s1" 1
          (Backend.save_message (Backend.mkMessage "s1" "user" "bye") three_messages)
        = Served (earlier ++ [("user", "bye")])%list)
  /\ ("s2" <> "s1"
      /\ Backend.get_messages "s2" 1
           (Backend.save_message (Backend.mkMessage "s1" "user" "bye") three_messages)
         = Backend.get_messages "s2" 1 three_messages).
Proof.
  pose proof (save_then_get_messages
                (Backend.mkMessage "s1" "user" "bye") 1 three_messages "s2")
    as [H1 H2].
  assert (- 2 ^ 63 <= 1 < 2 ^ 63)%Z as Hr by lia.
  split; [split; [discriminate|split; [exact Hr|]]|split; [discriminate|]].
  - apply H1; [discriminate|exact Hr].
  - apply H2. discriminate.
Defined.

(** X3.  How the counters of [GET /stats/{session_id}] move: a saved
    message raises the message count of its own session by one and of no
    other; a lead and a booking raise their counter by one; a service
    request and a chat request change no counter. *)
Theorem stats_after_writes
        (session_id : string) (d : DB) (message : Backend.Message)
        (lead : Backend.Lead) (test_drive : Backend.TestDrive)
        (service : Backend.ServiceRequest)
        (key : option string) (post : string -> outcome) (w : World)
        (request : Backend.ChatRequest) :
  Backend.get_stats session_id (Backend.save_message message d)
  = Backend.mkStats
      (Backend.stat_messages (Backend.get_stats session_id d)
       + if String.eqb (Backend.session_id message) session_id then 1 else 0)
      (Backend.stat_test_drives (Backend.get_stats session_id d))
      (Backend.stat_leads (Backend.get_stats session_id d))
  /\ Backend.get_stats session_id (Backend.create_lead lead d)
     = Backend.mkStats
         (Backend.stat_messages (Backend.get_stats session_id d))
         (Backend.stat_test_drives (Backend.get_stats session_id d))
         (S (Backend.stat_leads (Backend.get_stats session_id d)))
  /\ Backend.get_stats session_id (Backend.create_test_drive test_drive d)
     = Backend.mkStats
         (Backend.stat_messages (Backend.get_stats session_id d))
         (S (Backend.stat_test_drives (Backend.get_stats session_id d)))
         (Backend.stat_leads (Backend.get_stats session_id d))
  /\ Backend.get_stats session_id (Backend.create_service_request service d)
     = Backend.get_stats session_id d
  /\ Backend.get_stats session_id (db (snd (Backend.chat key post w request)))
     = Backend.get_stats session_id (db w).
Proof.
  split; [|split; [|split; [|split]]].
  - unfold Backend.get_stats. cbn [Backend.stat_messages Backend.stat_test_drives
                                   Backend.stat_leads].
    rewrite !count_session_history, session_history_save, length_app.
    f_equal. now destruct (String.eqb (Backend.session_id message) session_id).
  - unfold Backend.get_stats, Backend.create_lead, insert_lead,
      count_session_messages. cbn. rewrite length_app. cbn. f_equal. lia.
  - unfold Backend.get_stats, Backend.create_test_drive, insert_test_drive,
      count_session_messages. cbn. rewrite length_app. cbn. f_equal. lia.
  - reflexivity.
  - now rewrite backend_chat_db.
Qed.

Section PageAndStore.

Lemma session_history_frontend_save sid role text d :
  session_history sid (Frontend.save_message sid role text d)
  = (session_history sid d ++ [(role, text)])%list.
Proof.
  unfold session_history, Frontend.save_message, insert_message. cbn [messages].
  rewrite filter_app, map_app. unfold filter, of_session. cbn [msg_session_id].
  now rewrite String.eqb_refl.
Qed.

(** A turn leaves the page and the history of its session longer by the
    same entries: the user message and, when the call returns, the reply. *)
Lemma frontend_session_history_turn key post st w u :
  u <> "" ->
  exists added,
    session_history (Frontend.session_id st)
                    (db (snd (Frontend.on_chat_input key post (Some u) st w)))
    = (session_history (Frontend.session_id st) (db w) ++ added)%list
    /\ Frontend.st_messages (fst (Frontend.on_chat_input key post (Some u) st w))
       = (Frontend.st_messages st
          ++ map (fun row => Frontend.mkChatMsg (fst row) (snd row)) added)%list
    /\ length added <= 2
    /\ (call_returns key u (db w) ->
        exists r, added = [("user", u); ("assistant", r)]).
Proof.
  intros Hu.
  destruct (key_missing key) eqn:Hk;
    [|destruct (matching_query_fails ("%" ++ u ++ "%") (db w)) eqn:Hf].
  1, 3: assert (call_returns key u (db w)) as Hc
      by (unfold call_returns; rewrite ?Hk; auto);
    destruct (frontend_on_chat_input_eq key post u st w Hu Hc) as (r & posts & ->);
    exists [("user", u); ("assistant", r)];
    cbn [fst snd db Frontend.st_messages map];
    rewrite !session_history_frontend_save, <- !app_assoc;
    (split; [reflexivity|]); (split; [reflexivity|]);
    (split; [simpl; lia|]); intros _; now exists r.
  rewrite frontend_on_chat_input_raises by assumption.
  exists [("user", u)]. cbn [fst snd db Frontend.st_messages map].
  rewrite session_history_frontend_save.
  split; [reflexivity|]. split; [reflexivity|]. split; [simpl; lia|].
  intros [Hc|Hc]; congruence.
Qed.

Lemma load_messages_eq sid d :
  Frontend.load_messages sid d
  = map (fun row => Frontend.mkChatMsg (fst row) (snd row))
        (last_n 50 (session_history sid d)).
Proof.
  unfold Frontend.load_messages. now rewrite get_session_messages_eq.
Qed.

End PageAndStore.

(** X4.  When the page shows what the store holds for the session and the
    session has at most 48 messages, a chat turn of the script keeps it so:
    reloading the session afterwards gives exactly the messages on the
    page. *)
Theorem chat_turn_keeps_page_in_sync
        (key : option string) (post : string -> outcome)
        (st : Frontend.SessionState) (w : World) (u : string) :
  u <> "" ->
  Frontend.st_messages st = Frontend.load_messages (Frontend.session_id st) (db w) ->
  count_session_messages (Frontend.session_id st) (db w) + 2 <= 50 ->
  Frontend.st_messages (fst (Frontend.on_chat_input key post (Some u) st w))
  = Frontend.load_messages (Frontend.session_id st)
      (db (snd (Frontend.on_chat_input key post (Some u) st w))).
Proof.
  intros Hu Hsync Hlen.
  destruct (frontend_session_history_turn key post st w u Hu)
    as (added & Hh & Hm & Ha & _).
  rewrite count_session_history in Hlen.
  rewrite Hm, Hsync, !load_messages_eq, Hh.
  rewrite !last_n_all.
  - now rewrite map_app.
  - rewrite length_app. lia.
  - lia.
Qed.

Lemma chat_turn_keeps_page_in_sync_witness :
  "and you?" <> ""
  /\ [Frontend.mkChatMsg "user" "hi"; Frontend.mkChatMsg "assistant" "Hello";
      Frontend.mkChatMsg "user" "thanks"]
     = Frontend.load_messages "s1" three_messages
  /\ count_session_messages "s1" three_messages + 2 <= 50
  /\ Frontend.st_messages
       (fst (Frontend.on_chat_input
               None (fun _ => Return (reply_body "Fine.")) (Some "and you?")
               (Frontend.mkSessionState "s1"
                  [Frontend.mkChatMsg "user" "hi"; Frontend.mkChatMsg "assistant" "Hello";
                   Frontend.mkChatMsg "user" "thanks"])
               (mkWorld three_messages [])))
     = Frontend.load_messages "s1"
         (db (snd (Frontend.on_chat_input
                     None (fun _ => Return (reply_body "Fine.")) (Some "and you?")
                     (Frontend.mkSessionState "s1"
                        [Frontend.mkChatMsg "user" "hi";
                         Frontend.mkChatMsg "assistant" "Hello";
                         Frontend.mkChatMsg "user" "thanks"])
                     (mkWorld three_messages [])))).
Proof.
  assert ("and you?" <> "") as Hu by discriminate.
  assert (count_session_messages "s1" three_messages + 2 <= 50) as Hl
    by (vm_compute; lia).
  split; [exact Hu|]. split; [reflexivity|]. split; [exact Hl|].
  apply (chat_turn_keeps_page_in_sync
           None (fun _ => Return (reply_body "Fine."))
           (Frontend.mkSessionState "s1"
              [Frontend.mkChatMsg "user" "hi"; Frontend.mkChatMsg "assistant" "Hello";
               Frontend.mkChatMsg "user" "thanks"])
           (mkWorld three_messages []) "and you?" Hu eq_refl Hl).
Defined.

(** The name of the lead [l] is the text of a message of the session. *)
Definition named_in_session (session_id : string) (d : DB) (l : LeadRow) : bool :=
  existsb (fun row => String.eqb (lead_name l) (snd row))
          (session_history session_id d).

Lemma existsb_session_history (f : string -> bool) sid d :
  existsb (fun r => f (msg_text r)) (filter (of_session sid) (messages d))
  = existsb (fun row => f (snd row)) (session_history sid d).
Proof.
  unfold session_history.
  induction (filter (of_session sid) (messages d)) as [|r rs IH];
    [reflexivity|].
  cbn [map existsb snd]. now rewrite IH.
Qed.

Lemma count_leads_named sid d :
  count_leads_named_in_session sid d = length (filter (named_in_session sid d) (leads d)).
Proof.
  unfold count_leads_named_in_session, named_in_session. f_equal.
  apply filter_ext. intros l. apply existsb_session_history.
Qed.

Lemma named_in_session_iff sid d l :
  named_in_session sid d l = true
  <-> exists role, In (role, lead_name l) (session_history sid d).
Proof.
  unfold named_in_session. rewrite existsb_exists. split.
  - intros ([role text] & Hin & E). apply String.eqb_eq in E. cbn in E.
    subst text. now exists role.
  - intros (role & Hin). exists (role, lead_name l).
    split; [exact Hin|apply String.eqb_refl].
Qed.

(** X5.  The summary of the script counts the messages and the bookings as
    the API's stats do, and of the leads exactly those whose stored name is
    the text of a message of the session.  So a new lead raises the count by
    one when its trimmed name is such a text and leaves it otherwise; the
    count is never more than the API's, and it is zero for a session
    without messages. *)
Theorem history_summary_against_stats (session_id : string) (d : DB)
        (lead : Backend.Lead) :
  Backend.stat_messages (Frontend.get_user_history_summary session_id d)
  = Backend.stat_messages (Backend.get_stats session_id d)
  /\ Backend.stat_test_drives (Frontend.get_user_history_summary session_id d)
     = Backend.stat_test_drives (Backend.get_stats session_id d)
  /\ Backend.stat_leads (Frontend.get_user_history_summary session_id d)
     = length (filter (named_in_session session_id d) (leads d))
  /\ (forall l, named_in_session session_id d l = true
                <-> exists role, In (role, lead_name l) (session_history session_id d))
  /\ Backend.stat_leads
       (Frontend.get_user_history_summary session_id (Backend.create_lead lead d))
     = Backend.stat_leads (Frontend.get_user_history_summary session_id d)
       + (if existsb (fun row => String.eqb (strip (Backend.name lead)) (snd row))
                     (session_history session_id d)
          then 1 else 0)
  /\ Backend.stat_leads (Frontend.get_user_history_summary session_id d)
     <= Backend.stat_leads (Backend.get_stats session_id d)
  /\ (session_history session_id d = [] ->
      Backend.stat_leads (Frontend.get_user_history_summary session_id d) = 0).
Proof.
  split; [reflexivity|]. split; [reflexivity|].
  cbn [Frontend.get_user_history_summary Backend.stat_leads Backend.get_stats].
  rewrite !count_leads_named.
  split; [reflexivity|]. split; [apply named_in_session_iff|].
  split; [|split].
  - unfold Backend.create_lead, insert_lead. cbn [leads].
    rewrite filter_app, length_app. f_equal.
    unfold filter, named_in_session. cbn [lead_name].
    unfold session_history. cbn [messages].
    now destruct (existsb _ _).
  - apply filter_length_le.
  - intros H. unfold named_in_session. rewrite H. cbn [existsb].
    induction (leads d); [reflexivity|assumption].
Qed.

Lemma history_summary_against_stats_witness :
  (session_history "s9" three_messages = []
   /\ Backend.stat_leads (Frontend.get_user_history_summary "s9" three_messages) = 0)
  /\ Backend.stat_leads
       (Frontend.get_user_history_summary "s1"
          (Backend.create_lead
             (Backend.mkLead " thanks " "0300" None None None None) three_messages))
     = 1
  /\ Backend.stat_leads
       (Frontend.get_user_history_summary "s2"
          (Backend.create_lead
             (Backend.mkLead " thanks " "0300" None None None None) three_messages))
     = 0.
Proof.
  split; [split; [reflexivity|]|split; reflexivity].
  apply (proj2 (proj2 (proj2 (proj2 (proj2 (proj2
           (history_summary_against_stats
              "s9" three_messages
              (Backend.mkLead "hi" "0300" None None None None)))))))).
  reflexivity.
Defined.

(** ** Initialisation, listings and forms *)

(** X6.  [init_db] may be run again and again: a second run changes
    nothing, a store that has cars is left as it is, an empty car table gets
    exactly the five sample cars, and no other table is touched. *)
Theorem init_db_idempotent (d : DB) :
  init_db (init_db d) = init_db d
  /\ cars (init_db d) <> []
  /\ (cars d <> [] -> init_db d = d)
  /\ (cars d = [] -> cars (init_db d) = sample_cars)
  /\ messages (init_db d) = messages d
  /\ leads (init_db d) = leads d
  /\ test_drives (init_db d) = test_drives d
  /\ service_requests (init_db d) = service_requests d.
Proof.
  unfold init_db. destruct d as [ms ls cs ts ss]. cbn [cars].
  destruct cs as [|c cs]; cbn; repeat split; try discriminate; try reflexivity;
    try congruence.
Qed.

Lemma init_db_idempotent_witness :
  (cars (mkDB [] [] [sold_accord] [] []) <> []
   /\ init_db (mkDB [] [] [sold_accord] [] []) = mkDB [] [] [sold_accord] [] [])
  /\ (cars three_messages = [] /\ cars (init_db three_messages) = sample_cars).
Proof.
  pose proof (init_db_idempotent (mkDB [] [] [sold_accord] [] []))
    as (_ & _ & H1 & _).
  pose proof (init_db_idempotent three_messages) as (_ & _ & _ & H2 & _).
  split; split.
  - discriminate.
  - apply H1. discriminate.
  - reflexivity.
  - apply H2. reflexivity.
Defined.

(** X7.  The three listings give the newest entry first: what was just
    created heads the listing, trimmed and with its default status, in
    front of everything listed before. *)
Theorem listing_after_create
        (d : DB) (lead : Backend.Lead) (test_drive : Backend.TestDrive)
        (service : Backend.ServiceRequest) :
  (exists row,
     Backend.get_leads (Backend.create_lead lead d) = row :: Backend.get_leads d
     /\ lead_name row = strip (Backend.name lead)
     /\ lead_phone row = strip (Backend.phone lead)
     /\ lead_status row = "new")
  /\ (exists row,
        Backend.get_test_drives (Backend.create_test_drive test_drive d)
        = row :: Backend.get_test_drives d
        /\ td_customer_name row = strip (Backend.td_req_customer_name test_drive)
        /\ td_car_model row = strip (Backend.td_req_car_model test_drive)
        /\ td_status row = "pending")
  /\ (exists row,
        Backend.get_service_requests (Backend.create_service_request service d)
        = row :: Backend.get_service_requests d
        /\ sr_customer_name row = strip (Backend.sr_req_customer_name service)
        /\ sr_service_type row = strip (Backend.sr_req_service_type service)
        /\ sr_status row = "pending").
Proof.
  split; [|split]; eexists.
  - split.
    + unfold Backend.get_leads, Backend.create_lead, insert_lead. cbn [leads].
      now rewrite rev_app_distr.
    + now repeat split.
  - split.
    + unfold Backend.get_test_drives, Backend.create_test_drive, insert_test_drive.
      cbn [test_drives]. now rewrite rev_app_distr.
    + now repeat split.
  - split.
    + unfold Backend.get_service_requests, Backend.create_service_request,
        insert_service_request.
      cbn [service_requests]. now rewrite rev_app_distr.
    + now repeat split.
Qed.

Section Forms.

Lemma filled_iff x : Frontend.filled x = true <-> x <> "".
Proof.
  unfold Frontend.filled. rewrite negb_true_iff. apply String.eqb_neq.
Qed.

Lemma lstrip_all_space s : all_space s = true -> lstrip s = "".
Proof.
  induction s as [|c s IH]; simpl; [reflexivity|].
  intros H. apply andb_prop in H as [Hc Hs]. rewrite Hc. now apply IH.
Qed.

Lemma strip_all_space s : all_space s = true -> strip s = "".
Proof. intros H. unfold strip. now rewrite lstrip_all_space. Qed.

End Forms.

(** X8.  The three sidebar forms store nothing when a starred field is
    empty, and otherwise append exactly one row to their own table and
    leave the other tables alone. *)
Theorem forms_validate_required_fields
        (a b c e f g : string) (d : DB) :
  ((a = "" \/ b = "") ->
   fst (Frontend.submit_lead_form a b c e f g d) = d)
  /\ ((a = "" \/ b = "" \/ e = "") ->
      fst (Frontend.submit_test_drive_form a b c e f g d) = d)
  /\ ((a = "" \/ b = "" \/ c = "") ->
      fst (Frontend.submit_service_form a b c e f d) = d)
  /\ ((a <> "" /\ b <> "") ->
      fst (Frontend.submit_lead_form a b c e f g d)
      = Frontend.save_lead a b (Some c) (Some e) (Some f) (Some g) d
      /\ length (leads (fst (Frontend.submit_lead_form a b c e f g d)))
         = S (length (leads d)))
  /\ ((a <> "" /\ b <> "" /\ e <> "") ->
      fst (Frontend.submit_test_drive_form a b c e f g d)
      = Frontend.save_test_drive a b (Some c) e f g d
      /\ length (test_drives (fst (Frontend.submit_test_drive_form a b c e f g d)))
         = S (length (test_drives d)))
  /\ ((a <> "" /\ b <> "" /\ c <> "") ->
      fst (Frontend.submit_service_form a b c e f d)
      = Frontend.save_service_request a b c e (Some f) d
      /\ length (service_requests (fst (Frontend.submit_service_form a b c e f d)))
         = S (length (service_requests d))).
Proof.
  unfold Frontend.submit_lead_form, Frontend.submit_test_drive_form,
    Frontend.submit_service_form.
  repeat split.
  - intros [-> | ->]; [reflexivity|]. now rewrite andb_false_r.
  - intros [-> | [-> | ->]]; [reflexivity| |].
    + now rewrite andb_false_r.
    + now rewrite !andb_false_r.
  - intros [-> | [-> | ->]]; [reflexivity| |].
    + now rewrite andb_false_r.
    + now rewrite !andb_false_r.
  - destruct H as [Ha Hb]. apply filled_iff in Ha, Hb. now rewrite Ha, Hb.
  - destruct H as [Ha Hb]. apply filled_iff in Ha, Hb. rewrite Ha, Hb.
    unfold Frontend.save_lead, insert_lead. cbn [fst leads andb].
    rewrite length_app. simpl. lia.
  - destruct H as (Ha & Hb & He). apply filled_iff in Ha, Hb, He.
    now rewrite Ha, Hb, He.
  - destruct H as (Ha & Hb & He). apply filled_iff in Ha, Hb, He.
    rewrite Ha, Hb, He.
    unfold Frontend.save_test_drive, insert_test_drive. cbn [fst test_drives andb].
    rewrite length_app. simpl. lia.
  - destruct H as (Ha & Hb & Hc). apply filled_iff in Ha, Hb, Hc.
    now rewrite Ha, Hb, Hc.
  - destruct H as (Ha & Hb & Hc). apply filled_iff in Ha, Hb, Hc.
    rewrite Ha, Hb, Hc.
    unfold Frontend.save_service_request, insert_service_request.
    cbn [fst service_requests andb].
    rewrite length_app. simpl. lia.
Qed.

Lemma forms_validate_required_fields_witness :
  (("Ali" = "" \/ "" = "")
   /\ fst (Frontend.submit_lead_form "Ali" "" "a@b.pk" "Civic" "2M - 3M" "" empty_db)
      = empty_db)
  /\ (("Ali" <> "" /\ "0300" <> "")
      /\ length (leads (fst (Frontend.submit_lead_form
                               "Ali" "0300" "a@b.pk" "Civic" "2M - 3M" "" empty_db)))
         = 1)
  /\ (("Ali" = "" \/ "0300" = "" \/ "" = "")
      /\ fst (Frontend.submit_test_drive_form
                "Ali" "0300" "" "" "2026-01-05" "10:00 AM" empty_db) = empty_db)
  /\ (("Ali" <> "" /\ "0300" <> "" /\ "Civic" <> "")
      /\ length (test_drives (fst (Frontend.submit_test_drive_form
                                     "Ali" "0300" "" "Civic" "2026-01-05" "10:00 AM"
                                     empty_db))) = 1)
  /\ (("" = "" \/ "0300" = "" \/ "Civic" = "")
      /\ fst (Frontend.submit_service_form "" "0300" "Civic" "Oil Change" "" empty_db)
         = empty_db)
  /\ (("Ali" <> "" /\ "0300" <> "" /\ "Civic" <> "")
      /\ length (service_requests
                   (fst (Frontend.submit_service_form
                           "Ali" "0300" "Civic" "Oil Change" "" empty_db))) = 1).
Proof.
  pose proof (forms_validate_required_fields
                "Ali" "" "a@b.pk" "Civic" "2M - 3M" "" empty_db) as (L0 & _).
  pose proof (forms_validate_required_fields
                "Ali" "0300" "a@b.pk" "Civic" "2M - 3M" "" empty_db)
    as (_ & _ & _ & L1 & _).
  pose proof (forms_validate_required_fields
                "Ali" "0300" "" "" "2026-01-05" "10:00 AM" empty_db) as (_ & T0 & _).
  pose proof (forms_validate_required_fields
                "Ali" "0300" "" "Civic" "2026-01-05" "10:00 AM" empty_db)
    as (_ & _ & _ & _ & T1 & _).
  pose proof (forms_validate_required_fields
                "" "0300" "Civic" "Oil Change" "" "" empty_db) as (_ & _ & S0 & _).
  pose proof (forms_validate_required_fields
                "Ali" "0300" "Civic" "Oil Change" "" "" empty_db)
    as (_ & _ & _ & _ & _ & S1).
  assert ("Ali" <> "" /\ "0300" <> "") as H2 by (split; discriminate).
  assert ("Ali" <> "" /\ "0300" <> "" /\ "Civic" <> "") as H3
    by (repeat split; discriminate).
  split; [split; [now right|apply L0; now right]|].
  split; [split; [exact H2|apply (proj2 (L1 H2))]|].
  split; [split; [right; right; reflexivity|apply T0; right; right; reflexivity]|].
  split; [split; [exact H3|apply (proj2 (T1 H3))]|].
  split; [split; [now left|apply S0; now left]|].
  split; [exact H3|apply (proj2 (S1 H3))].
Defined.

(** X9.  The forms test the starred fields before trimming them: a name
    made of whitespace only passes the test and is stored as the empty
    string. *)
Theorem forms_accept_blank_names (a b c e f g : string) (d : DB) :
  a <> "" -> all_space a = true -> b <> "" ->
  (exists row,
     leads (fst (Frontend.submit_lead_form a b c e f g d)) = (leads d ++ [row])%list
     /\ lead_name row = "")
  /\ (e <> "" ->
      exists row,
        test_drives (fst (Frontend.submit_test_drive_form a b c e f g d))
        = (test_drives d ++ [row])%list
        /\ td_customer_name row = "")
  /\ (c <> "" ->
      exists row,
        service_requests (fst (Frontend.submit_service_form a b c e f d))
        = (service_requests d ++ [row])%list
        /\ sr_customer_name row = "").
Proof.
  intros Ha Hs Hb. apply filled_iff in Ha, Hb.
  unfold Frontend.submit_lead_form, Frontend.submit_test_drive_form,
    Frontend.submit_service_form.
  rewrite Ha, Hb. cbn [andb fst]. split; [|split].
  - eexists. split; [reflexivity|]. cbn [lead_name]. now apply strip_all_space.
  - intros He. apply filled_iff in He. rewrite He. cbn [fst].
    eexists. split; [reflexivity|]. cbn [td_customer_name]. now apply strip_all_space.
  - intros Hc. apply filled_iff in Hc. rewrite Hc. cbn [fst].
    eexists. split; [reflexivity|]. cbn [sr_customer_name]. now apply strip_all_space.
Qed.

Lemma forms_accept_blank_names_witness :
  "  " <> "" /\ all_space "  " = true /\ "0300" <> ""
  /\ (exists row,
        leads (fst (Frontend.submit_lead_form "  " "0300" "" "Civic" "Below 2M" ""
                                              empty_db)) = [row]
        /\ lead_name row = "")
  /\ ("Civic" <> ""
      /\ exists row,
           test_drives (fst (Frontend.submit_test_drive_form
                               "  " "0300" "" "Civic" "Below 2M" "" empty_db)) = [row]
           /\ td_customer_name row = "").
Proof.
  assert ("  " <> "") as Ha by discriminate.
  assert ("0300" <> "") as Hb by discriminate.
  assert ("Civic" <> "") as He by discriminate.
  pose proof (forms_accept_blank_names "  " "0300" "" "Civic" "Below 2M" "" empty_db
                                       Ha eq_refl Hb) as (L & T & _).
  split; [exact Ha|]. split; [reflexivity|]. split; [exact Hb|].
  split; [exact L|]. split; [exact He|exact (T He)].
Defined.

(** ** Listing and searching cars *)

Section CarListing.

Lemma order_by_year_desc_length l : length (order_by_year_desc l) = length l.
Proof. symmetry. apply Permutation_length, order_by_year_desc_perm. Qed.

Lemma lower_ascii_idem c : lower_ascii (lower_ascii c) = lower_ascii c.
Proof. destruct c as [[] [] [] [] [] [] [] []]; reflexivity. Qed.

Lemma lower_ascii_percent c :
  Ascii.eqb (lower_ascii c) "%"%char = Ascii.eqb c "%"%char.
Proof. destruct c as [[] [] [] [] [] [] [] []]; reflexivity. Qed.

Lemma lower_ascii_underscore c :
  Ascii.eqb (lower_ascii c) "_"%char = Ascii.eqb c "_"%char.
Proof. destruct c as [[] [] [] [] [] [] [] []]; reflexivity. Qed.

Lemma lower_idem s : lower (lower s) = lower s.
Proof. induction s as [|c s IH]; simpl; [reflexivity|]. now rewrite lower_ascii_idem, IH. Qed.

Lemma lower_ascii_nul c :
  Ascii.eqb (lower_ascii c) Ascii.zero = Ascii.eqb c Ascii.zero.
Proof. destruct c as [[] [] [] [] [] [] [] []]; reflexivity. Qed.

Lemma c_string_lower s : c_string (lower s) = lower (c_string s).
Proof.
  induction s as [|c s IH]; [reflexivity|].
  cbn [lower c_string]. rewrite lower_ascii_nul.
  destruct (Ascii.eqb c Ascii.zero); [reflexivity|].
  cbn [lower]. now rewrite IH.
Qed.

Lemma skip_continuation_lower s :
  skip_continuation (lower s) = lower (skip_continuation s).
Proof.
  induction s as [|c s IH]; [reflexivity|].
  cbn [lower skip_continuation]. rewrite is_continuation_lower.
  now destruct (is_continuation c).
Qed.

Lemma after_character_lower d s :
  after_character (lower_ascii d) (lower s) = lower (after_character d s).
Proof.
  unfold after_character. rewrite is_lead_lower.
  destruct (is_lead d); [apply skip_continuation_lower|reflexivity].
Qed.

Lemma any_run_lower (f g : string -> bool) inside s :
  (forall t, f (lower t) = g t) ->
  any_run f inside (lower s) = any_run g inside s.
Proof.
  intros H. revert inside; induction s as [|b s IH]; intros inside.
  - apply (H "").
  - cbn [lower any_run]. rewrite is_continuation_lower, is_lead_lower, !IH.
    change (String (lower_ascii b) (lower s)) with (lower (String b s)).
    now rewrite H.
Qed.

(** The comparison does not see the letter case of the text. *)
Lemma pattern_compare_lower_text p s :
  pattern_compare p (lower s) = pattern_compare p s.
Proof.
  revert s; induction p as [|c p IH]; intros s.
  - now destruct s.
  - cbn [pattern_compare].
    destruct (Ascii.eqb c "%"%char); [now apply any_run_lower|].
    destruct s as [|d s]; [reflexivity|].
    cbn [lower]. rewrite lower_ascii_idem, after_character_lower, !IH.
    reflexivity.
Qed.

(** The comparison does not see the letter case of the pattern. *)
Lemma pattern_compare_lower_pattern p s :
  pattern_compare (lower p) s = pattern_compare p s.
Proof.
  revert s; induction p as [|c p IH]; intros s; [reflexivity|].
  cbn [lower pattern_compare].
  rewrite lower_ascii_percent, lower_ascii_underscore, lower_ascii_idem.
  destruct (Ascii.eqb c "%"%char); [now apply any_run_ext|].
  destruct s as [|d s]; [reflexivity|]. now rewrite !IH.
Qed.

Lemma like_lower_pattern p s : like (lower p) s = like p s.
Proof. unfold like. now rewrite c_string_lower, pattern_compare_lower_pattern. Qed.

Lemma like_lower_text p s : like p (lower s) = like p s.
Proof. unfold like. now rewrite c_string_lower, pattern_compare_lower_text. Qed.

Lemma lower_pattern q : lower ("%" ++ q ++ "%") = "%" ++ lower q ++ "%".
Proof. now rewrite !lower_app. Qed.

Lemma length_lower s : String.length (lower s) = String.length s.
Proof. induction s as [|c s IH]; simpl; [reflexivity|]. now rewrite IH. Qed.

(** The scan does not see the letter case of the pattern either: neither
    in what it finds nor in whether it fails. *)
Lemma query_matching_lower q d :
  query_matching ("%" ++ lower q ++ "%") d = query_matching ("%" ++ q ++ "%") d.
Proof.
  rewrite !query_matching_eq.
  assert (matching_query_fails ("%" ++ lower q ++ "%") d
          = matching_query_fails ("%" ++ q ++ "%") d) as ->.
  { unfold matching_query_fails, like_pattern_too_long.
    now rewrite !length_app_string, length_lower. }
  destruct (matching_query_fails _ d); [reflexivity|]. f_equal.
  unfold select_matching. apply filter_ext. intros c.
  now rewrite <- lower_pattern, !like_lower_pattern.
Qed.

Lemma available_listed d car :
  In car (cars d) -> car_status car = "available" ->
  In car (Backend.get_all_cars d).
Proof.
  intros Hc Hs. unfold Backend.get_all_cars, select_available.
  apply (Permutation_in _ (order_by_year_desc_perm _)).
  apply filter_In. split; [assumption|now apply available_iff].
Qed.

Lemma select_matching_empty_query d :
  select_matching ("%" ++ "" ++ "%") d = filter available (cars d).
Proof.
  unfold select_matching. apply filter_ext. intros c.
  rewrite !like_percent_percent. simpl. apply andb_true_r.
Qed.

Lemma backend_search_cars_empty d :
  Backend.search_cars "" d = Served (filter available (cars d)).
Proof.
  unfold Backend.search_cars. cbv zeta.
  rewrite query_matching_runs by (now apply short_pattern_runs).
  now rewrite select_matching_empty_query.
Qed.

End CarListing.

(** X10.  [GET /cars] lists every available car exactly once and no other
    row, newest year first; the script's helper gives the same list, and
    with at most ten available cars the snapshot of the chat prompt is
    that whole list. *)
Theorem get_all_cars_complete (d : DB) :
  Permutation (filter available (cars d)) (Backend.get_all_cars d)
  /\ StronglySorted year_ge (Backend.get_all_cars d)
  /\ Frontend.get_all_cars d = Backend.get_all_cars d
  /\ (length (filter available (cars d)) <= 10 ->
      select_available_limit 10 d = Backend.get_all_cars d).
Proof.
  unfold Backend.get_all_cars, Frontend.get_all_cars, select_available_limit,
    select_available.
  split; [apply order_by_year_desc_perm|].
  split; [apply order_by_year_desc_sorted|]. split; [reflexivity|].
  intros H. apply firstn_all2. now rewrite order_by_year_desc_length.
Qed.

Lemma get_all_cars_complete_witness :
  length (filter available (cars (init_db empty_db))) <= 10
  /\ select_available_limit 10 (init_db empty_db)
     = Backend.get_all_cars (init_db empty_db).
Proof.
  assert (length (filter available (cars (init_db empty_db))) <= 10) as H
    by (vm_compute; lia).
  split; [exact H|].
  exact (proj2 (proj2 (proj2 (get_all_cars_complete (init_db empty_db)))) H).
Defined.

(** X11.  Car search never returns a row that [GET /cars] does not list,
    and whatever a query returns the empty query returns too. *)
Theorem search_within_listing (query : string) (d : DB) (car : CarRow)
        (found : list CarRow) :
  Backend.search_cars query d = Served found ->
  In car found ->
  In car (Backend.get_all_cars d)
  /\ exists all, Backend.search_cars "" d = Served all /\ In car all.
Proof.
  intros Hf H. unfold Backend.search_cars in Hf. cbv zeta in Hf.
  destruct (query_matching ("%" ++ query ++ "%") d) as [rows|e] eqn:E;
    [|discriminate].
  apply query_matching_returns in E. injection Hf as <-. subst rows.
  apply select_matching_In in H as (Hc & Hs & _).
  split; [now apply available_listed|].
  exists (filter available (cars d)). split; [apply backend_search_cars_empty|].
  apply filter_In. split; [assumption|now apply available_iff].
Qed.

Lemma search_within_listing_witness :
  Backend.search_cars "civ" (init_db empty_db) = Served [honda_civic]
  /\ In honda_civic [honda_civic]
  /\ In honda_civic (Backend.get_all_cars (init_db empty_db))
  /\ exists all, Backend.search_cars "" (init_db empty_db) = Served all
                 /\ In honda_civic all.
Proof.
  assert (Backend.search_cars "civ" (init_db empty_db) = Served [honda_civic]) as E
    by (vm_compute; reflexivity).
  assert (In honda_civic [honda_civic]) as H by (left; reflexivity).
  split; [exact E|]. split; [exact H|].
  exact (search_within_listing "civ" (init_db empty_db) honda_civic [honda_civic] E H).
Defined.

(** X12.  Car search does not depend on the letter case of the query, and
    the LIKE test does not depend on the letter case of the stored text
    either. *)
Theorem search_ignores_case (query : string) (d : DB) (p s : string) :
  Backend.search_cars (lower query) d = Backend.search_cars query d
  /\ Frontend.search_cars (lower query) d = Frontend.search_cars query d
  /\ like p (lower s) = like p s
  /\ like (lower p) s = like p s.
Proof.
  split; [|split; [|split; [apply like_lower_text|apply like_lower_pattern]]].
  - unfold Backend.search_cars. cbv zeta. now rewrite query_matching_lower.
  - unfold Frontend.search_cars. cbv zeta. now rewrite query_matching_lower.
Qed.

(** ** Knowledge base *)

Section KnowledgeBaseMore.

(** The matching topics have pairwise different info texts. *)
Lemma kb_matching_infos_NoDup (query_lower : string) :
  NoDup (map info (filter (topic_matches query_lower) kb_values)).
Proof.
  generalize kb_infos_NoDup. generalize kb_values as topics.
  induction topics as [|data topics IH]; intros Hnd; cbn [filter map];
    [constructor|].
  apply NoDup_cons_iff in Hnd as [Hfresh Hrest].
  destruct (topic_matches query_lower data); cbn [map]; [|auto].
  apply NoDup_cons; [|auto].
  contradict Hfresh.
  apply in_map_iff in Hfresh as (other & Hsame & Hother).
  apply filter_In in Hother as [Hother _].
  rewrite <- Hsame. now apply in_map.
Qed.

Lemma contains_trans (k s t : string) :
  contains k s = true -> contains s t = true -> contains k t = true.
Proof.
  rewrite !contains_iff. intros (b1 & a1 & ->) (b2 & a2 & ->).
  exists (b2 ++ b1), (a1 ++ a2). now rewrite !append_assoc.
Qed.

End KnowledgeBaseMore.

(** X13.  The knowledge-base match does not depend on the letter case of
    the query, and a longer query loses nothing: every info text found for
    a query is found for any text that contains the query. *)
Theorem search_knowledge_base_monotone (query before after text : string) :
  search_knowledge_base (lower query) = search_knowledge_base query
  /\ (In text (search_knowledge_base query) ->
      In text (search_knowledge_base (before ++ query ++ after))).
Proof.
  split.
  - unfold search_knowledge_base. now rewrite lower_idem.
  - rewrite !search_knowledge_base_filter, !in_map_iff.
    intros (data & <- & Hin). exists data. split; [reflexivity|].
    apply filter_In in Hin as [Hd Hm]. apply filter_In. split; [assumption|].
    unfold topic_matches in *. apply existsb_exists in Hm as (k & Hk & Hc).
    apply existsb_exists. exists k. split; [assumption|].
    apply (contains_trans k (lower query)); [assumption|].
    apply contains_iff. exists (lower before), (lower after).
    now rewrite !lower_app.
Qed.

Lemma search_knowledge_base_monotone_witness :
  In (info financing) (search_knowledge_base "LOAN")
  /\ In (info financing) (search_knowledge_base ("any " ++ "LOAN" ++ " offers?")).
Proof.
  assert (In (info financing) (search_knowledge_base "LOAN")) as H
    by (vm_compute; tauto).
  split; [exact H|].
  exact (proj2 (search_knowledge_base_monotone "LOAN" "any " " offers?"
                                               (info financing)) H).
Defined.

(** X14.  Whatever the query, the match holds no text twice, at most eight
    texts, and only info texts of the table. *)
Theorem search_knowledge_base_bounded (query : string) :
  NoDup (search_knowledge_base query)
  /\ length (search_knowledge_base query) <= 8
  /\ incl (search_knowledge_base query) (map info kb_values).
Proof.
  rewrite search_knowledge_base_filter. split; [|split].
  - apply kb_matching_infos_NoDup.
  - rewrite length_map.
    apply (Nat.le_trans _ (length kb_values)); [apply filter_length_le|].
    vm_compute. lia.
  - intros x Hx. apply in_map_iff in Hx as (t & <- & Ht).
    apply in_map. now apply filter_In in Ht as [Ht _].
Qed.

(** ** The prompt *)

Section PromptBlocks.

Lemma car_detail_nonempty car : Backend.car_detail car <> "".
Proof. unfold Backend.car_detail. simpl. discriminate. Qed.

Lemma append_eq_empty a b : a ++ b = "" -> a = "".
Proof. destruct a; simpl; [reflexivity|discriminate]. Qed.

Lemma join_head_nonempty sep x rest : x <> "" -> join sep (x :: rest) <> "".
Proof.
  intros Hx. destruct rest; simpl; [assumption|].
  intros H. now apply append_eq_empty in H.
Qed.

Lemma car_details_empty cars : Backend.car_details cars = "" <-> cars = [].
Proof.
  split; [|now intros ->].
  destruct cars as [|c cs]; [reflexivity|].
  intros H. exfalso. revert H. apply join_head_nonempty, car_detail_nonempty.
Qed.

Lemma last_n_app_exact {A} (older recent : list A) n :
  length recent = n -> last_n n (older ++ recent) = recent.
Proof.
  intros H. unfold last_n. rewrite length_app, skipn_app.
  replace (length older + length recent - n) with (length older) by lia.
  rewrite skipn_all. now replace (length older - length older) with 0 by lia.
Qed.

Lemma backend_history_text_eq entries :
  Backend.history_text (Some entries)
  = join nl (map Backend.history_line (last_n 10 entries)).
Proof. now destruct entries. Qed.

End PromptBlocks.

(** X15.  Both files build the same block of relevant information and
    matching cars for a query, from the rows its car search finds, and the
    block is empty exactly when no topic and no car matched: a section is
    either there with content or left out. *)
Theorem additional_context_agrees (query : string) (d : DB) (kb_matches : list string) :
  Frontend.additional_context kb_matches
    (Frontend.car_details_text (select_matching ("%" ++ query ++ "%") d))
  = Backend.additional_context kb_matches
      (Backend.car_details (select_matching ("%" ++ query ++ "%") d))
  /\ (matching_query_fails ("%" ++ query ++ "%") d = false ->
      Frontend.get_car_details query d
      = Return (Frontend.car_details_text (select_matching ("%" ++ query ++ "%") d)))
  /\ (forall details,
        Frontend.get_car_details query d = Return details ->
        Frontend.additional_context kb_matches details
        = Backend.additional_context kb_matches
            (Backend.car_details (select_matching ("%" ++ query ++ "%") d)))
  /\ (Backend.additional_context kb_matches
        (Backend.car_details (select_matching ("%" ++ query ++ "%") d)) = ""
      <-> kb_matches = [] /\ select_matching ("%" ++ query ++ "%") d = []).
Proof.
  assert (Frontend.additional_context kb_matches
            (Frontend.car_details_text (select_matching ("%" ++ query ++ "%") d))
          = Backend.additional_context kb_matches
              (Backend.car_details (select_matching ("%" ++ query ++ "%") d))) as E.
  { unfold Frontend.additional_context, Backend.additional_context,
      Frontend.car_details_text.
    destruct (select_matching ("%" ++ query ++ "%") d) as [|c cs]; reflexivity. }
  assert (Frontend.get_car_details query d
          = if matching_query_fails ("%" ++ query ++ "%") d
            then Raise pattern_too_complex
            else Return (Frontend.car_details_text
                           (select_matching ("%" ++ query ++ "%") d))) as G.
  { unfold Frontend.get_car_details, Frontend.search_cars. cbv zeta.
    rewrite query_matching_eq. now destruct (matching_query_fails _ d). }
  split; [exact E|]. split; [|split].
  - intros H. now rewrite G, H.
  - intros details. rewrite G.
    destruct (matching_query_fails _ d); [discriminate|]. now intros [= <-].
  - unfold Backend.additional_context. split.
    + intros H. destruct kb_matches as [|k ks]; [|simpl in H; discriminate].
      split; [reflexivity|]. simpl in H.
      destruct (String.eqb _ "") eqn:E'; [|simpl in H; discriminate].
      apply String.eqb_eq in E'. now apply car_details_empty.
    + intros [-> ->]. reflexivity.
Qed.

Lemma additional_context_agrees_witness :
  matching_query_fails ("%" ++ "civ" ++ "%") (init_db empty_db) = false
  /\ Frontend.get_car_details "civ" (init_db empty_db)
     = Return (Some (Backend.car_detail honda_civic))
  /\ Frontend.additional_context [] (Some (Backend.car_detail honda_civic))
     = Backend.additional_context []
         (Backend.car_details (select_matching ("%" ++ "civ" ++ "%") (init_db empty_db))).
Proof.
  pose proof (additional_context_agrees "civ" (init_db empty_db) []) as (_ & G & A & _).
  assert (matching_query_fails ("%" ++ "civ" ++ "%") (init_db empty_db) = false) as H
    by reflexivity.
  split; [exact H|]. split; [exact (G H)|].
  apply A. exact (G H).
Defined.

(** X16.  Of the history sent to the chat endpoint only the last ten
    entries reach the prompt: two requests that agree on them, on the
    message and on the store get the same prompt, whatever came earlier
    and whatever the session id is. *)
Theorem older_history_is_dropped
        (d : DB) (sid sid' query : string)
        (older older' recent : list Backend.history_entry) :
  length recent = 10 ->
  Backend.full_prompt d (Backend.mkChatRequest sid query (Some (older ++ recent)%list))
  = Backend.full_prompt d (Backend.mkChatRequest sid' query (Some (older' ++ recent)%list)).
Proof.
  intros H. unfold Backend.full_prompt, Backend.prompt_of.
  cbn [Backend.user_message Backend.history].
  now rewrite !backend_history_text_eq, !last_n_app_exact by assumption.
Qed.

Definition ten_turns : list Backend.history_entry :=
  repeat [("role", "user"); ("content", "hi")] 10.

Lemma older_history_is_dropped_witness :
  length ten_turns = 10
  /\ Backend.full_prompt (init_db empty_db)
       (Backend.mkChatRequest "s1" "any loan?"
          (Some ([[("role", "user"); ("content", "first")]] ++ ten_turns)%list))
     = Backend.full_prompt (init_db empty_db)
         (Backend.mkChatRequest "s2" "any loan?" (Some ([] ++ ten_turns)%list)).
Proof.
  split; [reflexivity|].
  apply (older_history_is_dropped
           (init_db empty_db) "s1" "s2" "any loan?"
           [[("role", "user"); ("content", "first")]] [] ten_turns).
  reflexivity.
Defined.

Section PromptCarries.

Lemma contains_refl (w : string) : contains w w = true.
Proof. apply contains_iff. exists "", "". simpl. now rewrite append_nil_r. Qed.

Lemma contains_app_r (w before s : string) :
  contains w s = true -> contains w (before ++ s) = true.
Proof.
  rewrite !contains_iff. intros (b & a & ->).
  exists (before ++ b), a. now rewrite !append_assoc.
Qed.

Lemma contains_head (w rest : string) : contains w (w ++ rest) = true.
Proof. apply contains_app_l, contains_refl. Qed.

End PromptCarries.

(** X17.  The prompt of either file carries the customer's text and the
    history text verbatim. *)
Theorem prompt_carries_query_and_history
        (d : DB) (request : Backend.ChatRequest) (user_query conversation_history : string) :
  contains (Backend.user_message request) (Backend.full_prompt d request) = true
  /\ contains (Backend.history_text (Backend.history request))
              (Backend.full_prompt d request) = true
  /\ contains user_query (Frontend.full_prompt d user_query conversation_history) = true
  /\ contains conversation_history
              (Frontend.full_prompt d user_query conversation_history) = true.
Proof.
  unfold Backend.full_prompt, Backend.prompt_of,
    Frontend.full_prompt, Frontend.prompt_of. cbv zeta.
  split; [|split; [|split]].
  - do 12 apply contains_app_r. apply contains_head.
  - do 8 apply contains_app_r. apply contains_head.
  - do 12 apply contains_app_r. apply contains_head.
  - do 8 apply contains_app_r. apply contains_head.
Qed.

(** ** Replies *)

Section Replies.

Lemma append_nonempty_l a b : a <> "" -> a ++ b <> "".
Proof. intros Ha H. now apply append_eq_empty in H. Qed.

Lemma suggest_action_nonempty v s :
  truthy v = true -> Backend.suggest_action v = OK s -> s <> "".
Proof.
  intros Hv. destruct v as [| | |t| |]; try discriminate.
  assert (t <> "") as Ht.
  { simpl in Hv. apply negb_true_iff in Hv. now apply String.eqb_neq. }
  rewrite suggest_action_str.
  destruct (any_word_in Backend.trigger_words (lower t)); intros [= <-];
    [now apply append_nonempty_l|assumption].
Qed.

Lemma respond_nonempty o s : Backend.respond o = OK s -> s <> "".
Proof.
  unfold Backend.respond, Backend.response_after_try.
  destruct o as [body|e]; cbn [bind].
  - destruct (Backend.extract_text body) as [v|e]; cbn [bind].
    + destruct (truthy v) eqn:Hv.
      * now apply suggest_action_nonempty.
      * rewrite suggest_action_couldnt_generate. intros [= <-]. discriminate.
    + rewrite suggest_action_having_trouble. intros [= <-]. discriminate.
  - rewrite suggest_action_having_trouble. intros [= <-]. discriminate.
Qed.

(** A response body whose first part of the first candidate is [part]. *)
Definition body_with_part (part : json) : json :=
  JObj [("candidates",
         JArr [JObj [("content", JObj [("parts", JArr [part])])]])].

End Replies.

(** X18.  Whatever the generation API does, a reply that the chat endpoint
    returns is never the empty string. *)
Theorem chat_reply_never_empty
        (key : option string) (post : string -> outcome) (w : World)
        (request : Backend.ChatRequest) (s : string) :
  fst (Backend.chat key post w request) = OK s -> s <> "".
Proof.
  unfold Backend.chat.
  destruct (query_matching _ _); [|discriminate].
  destruct (key_missing key); cbn [fst].
  - intros [= <-]. discriminate.
  - apply respond_nonempty.
Qed.

Lemma chat_reply_never_empty_witness :
  fst (Backend.chat (Some "k") (fun _ => Return (reply_body ""))
                    (mkWorld (init_db empty_db) [])
                    (Backend.mkChatRequest "s1" "hi" None))
  = OK Backend.couldnt_generate
  /\ Backend.couldnt_generate <> "".
Proof.
  assert (fst (Backend.chat (Some "k") (fun _ => Return (reply_body ""))
                            (mkWorld (init_db empty_db) [])
                            (Backend.mkChatRequest "s1" "hi" None))
          = OK Backend.couldnt_generate) as H by (vm_compute; reflexivity).
  split; [exact H|].
  exact (chat_reply_never_empty (Some "k") (fun _ => Return (reply_body ""))
                                (mkWorld (init_db empty_db) [])
                                (Backend.mkChatRequest "s1" "hi" None)
                                Backend.couldnt_generate H).
Defined.

(** X19.  When the first part of the response has no text, or an empty
    one, the two files part ways: the chat endpoint answers with its
    "couldn't generate" text, the script returns the empty string. *)
Theorem empty_text_in_both_files (items : list (string * json)) :
  (lookup "text" items = None \/ lookup "text" items = Some (JStr "")) ->
  Backend.respond (Return (body_with_part (JObj items))) = OK Backend.couldnt_generate
  /\ Frontend.answer_of (Return (body_with_part (JObj items))) = "".
Proof.
  intros H. unfold Backend.respond, Backend.response_after_try, Frontend.answer_of.
  cbn [bind].
  assert (Backend.extract_text (body_with_part (JObj items)) = Return (JStr "")) as ->.
  { unfold Backend.extract_text, body_with_part. cbn.
    destruct H as [-> | ->]; reflexivity. }
  assert (Frontend.parse_response (body_with_part (JObj items)) = Return "") as ->.
  { unfold Frontend.parse_response, body_with_part. cbn.
    destruct H as [-> | ->]; reflexivity. }
  cbn [bind truthy String.eqb negb].
  split; [apply suggest_action_couldnt_generate|reflexivity].
Qed.

Lemma empty_text_in_both_files_witness :
  (lookup "text" [("role", JStr "model")] = None
   \/ lookup "text" [("role", JStr "model")] = Some (JStr ""))
  /\ Frontend.answer_of (Return (body_with_part (JObj [("role", JStr "model")]))) = "".
Proof.
  assert (lookup "text" [("role", JStr "model")] = None
          \/ lookup "text" [("role", JStr "model")] = Some (JStr "")) as H
    by (left; reflexivity).
  split; [exact H|].
  exact (proj2 (empty_text_in_both_files [("role", JStr "model")] H)).
Defined.

(** ** Trimming *)

Section TrimTwice.

Lemma lstrip_trimmed t :
  (forall c, first_char t = Some c -> isspace c = false) -> lstrip t = t.
Proof.
  destruct t as [|c t]; [reflexivity|]. simpl. intros H.
  now rewrite (H c eq_refl).
Qed.

Lemma rstrip_trimmed t :
  (forall c, last_char t = Some c -> isspace c = false) -> rstrip t = t.
Proof.
  induction t as [|c t IH]; [reflexivity|]. intros H. simpl.
  destruct t as [|c' t'].
  - simpl. now rewrite (H c eq_refl).
  - rewrite IH; [reflexivity|]. intros x Hx. apply H. exact Hx.
Qed.

Lemma strip_idem s : strip (strip s) = strip s.
Proof.
  destruct (strip_is_trim s) as [[Hf Hl] _].
  unfold strip at 1. rewrite (lstrip_trimmed _ Hf). now apply rstrip_trimmed.
Qed.

End TrimTwice.

(** X20.  Trimming settles at once: a lead created from the fields of a
    stored lead is stored with exactly those fields again. *)
Theorem stored_lead_is_stable (lead : Backend.Lead) (d d' : DB) :
  exists row,
    leads (Backend.create_lead lead d) = (leads d ++ [row])%list
    /\ leads (Backend.create_lead
                (Backend.mkLead (lead_name row) (lead_phone row)
                                (Some (lead_email row)) (Some (lead_interested_in row))
                                (Some (lead_budget row)) (Some (lead_notes row))) d')
       = (leads d' ++ [row])%list.
Proof.
  eexists. split; [reflexivity|].
  unfold Backend.create_lead, insert_lead.
  cbn [leads Backend.name Backend.phone Backend.email Backend.interested_in
       Backend.budget Backend.notes Backend.or_empty
       lead_name lead_phone lead_email lead_interested_in lead_budget lead_notes].
  now rewrite !strip_idem.
Qed.

(** ** Sessions of the script *)

Section Sessions.

(** What a turn stores: the user row and, when the call returns, the
    reply after it. *)
Lemma frontend_turn_db key post st w u :
  u <> "" ->
  db (snd (Frontend.on_chat_input key post (Some u) st w))
  = insert_message (mkMessageRow (Frontend.session_id st) "user" u) (db w)
  \/ exists r,
       db (snd (Frontend.on_chat_input key post (Some u) st w))
       = insert_message (mkMessageRow (Frontend.session_id st) "assistant" r)
           (insert_message (mkMessageRow (Frontend.session_id st) "user" u) (db w)).
Proof.
  intros Hu.
  destruct (key_missing key) eqn:Hk;
    [|destruct (matching_query_fails ("%" ++ u ++ "%") (db w)) eqn:Hf].
  1, 3: right;
    assert (call_returns key u (db w)) as Hc
      by (unfold call_returns; rewrite ?Hk; auto);
    destruct (frontend_on_chat_input_eq key post u st w Hu Hc) as (r & posts & ->);
    now exists r.
  left. now rewrite frontend_on_chat_input_raises.
Qed.

Lemma session_history_insert_other sid row d :
  msg_session_id row <> sid ->
  session_history sid (insert_message row d) = session_history sid d.
Proof.
  intros H. unfold session_history, insert_message. cbn [messages].
  rewrite filter_app. unfold filter at 2. unfold of_session at 2.
  assert (String.eqb (msg_session_id row) sid = false) as ->
    by now apply String.eqb_neq.
  now rewrite app_nil_r.
Qed.

End Sessions.

(** X21.  A chat turn of the script writes into its own session only: the
    history of every other session reads as before, and no lead, car,
    booking or service request is added or changed. *)
Theorem chat_turn_touches_one_session
        (key : option string) (post : string -> outcome)
        (st : Frontend.SessionState) (w : World) (u other : string) :
  u <> "" -> other <> Frontend.session_id st ->
  session_history other (db (snd (Frontend.on_chat_input key post (Some u) st w)))
  = session_history other (db w)
  /\ leads (db (snd (Frontend.on_chat_input key post (Some u) st w))) = leads (db w)
  /\ cars (db (snd (Frontend.on_chat_input key post (Some u) st w))) = cars (db w)
  /\ test_drives (db (snd (Frontend.on_chat_input key post (Some u) st w)))
     = test_drives (db w)
  /\ service_requests (db (snd (Frontend.on_chat_input key post (Some u) st w)))
     = service_requests (db w).
Proof.
  intros Hu Ho. destruct (frontend_turn_db key post st w u Hu) as [->|[r ->]].
  - split; [|repeat split].
    rewrite session_history_insert_other; [reflexivity|]. cbn. congruence.
  - split; [|repeat split].
    rewrite !session_history_insert_other; [reflexivity| |]; cbn; congruence.
Qed.

Lemma chat_turn_touches_one_session_witness :
  "hello" <> "" /\ "s2" <> "s1"
  /\ session_history "s2"
       (db (snd (Frontend.on_chat_input
                   None (fun _ => Return (reply_body "Hi!")) (Some "hello")
                   (Frontend.mkSessionState "s1" []) (mkWorld three_messages []))))
     = session_history "s2" three_messages.
Proof.
  assert ("hello" <> "") as Hu by discriminate.
  assert ("s2" <> "s1") as Ho by discriminate.
  split; [exact Hu|]. split; [exact Ho|].
  exact (proj1 (chat_turn_touches_one_session
                  None (fun _ => Return (reply_body "Hi!"))
                  (Frontend.mkSessionState "s1" []) (mkWorld three_messages [])
                  "hello" "s2" Hu Ho)).
Defined.


